(** * openai-nim-proxy: a shallow embedding of [server.js]

    The proxy accepts OpenAI-style chat-completion requests, resolves the
    requested model name to a backend model, builds the backend request,
    and re-emits the backend's event stream after moving the separate
    [reasoning_content] channel into (or out of) the visible [content].

    JavaScript values are modelled as JSON trees, JavaScript strings as
    [string] (the UTF-8 bytes of the text), the [Map] used as a cache as an
    insertion-ordered association list, exceptions as an explicit
    completion type, and the mutable variables of a request
    ([buffer], [reasoningStarted]) as an explicit state record. *)

From Stdlib Require Import String Ascii List Bool Arith ZArith NArith Lia DecimalString.
Import ListNotations.

Local Open Scope string_scope.
Local Open Scope list_scope.

(* ================================================================= *)
(** ** Strings *)

Module Str.

(** [s.startsWith(p)] *)
Fixpoint startsWith (p s : string) : bool :=
  match p, s with
  | EmptyString, _ => true
  | String a p', String b s' => if Ascii.eqb a b then startsWith p' s' else false
  | String _ _, EmptyString => false
  end.

(** [s.includes(sub)] *)
Fixpoint includes (sub s : string) : bool :=
  match s with
  | EmptyString => startsWith sub EmptyString
  | String _ s' => startsWith sub s || includes sub s'
  end.

(** [s.slice(n)] for [0 <= n]. *)
Fixpoint slice (n : nat) (s : string) : string :=
  match n, s with
  | O, _ => s
  | S n', String _ s' => slice n' s'
  | S _, EmptyString => EmptyString
  end.

(** [s.split('\n')]: never empty; its last element is the text after the
    last line feed. *)
Fixpoint split_lf (s : string) : list string :=
  match s with
  | EmptyString => [EmptyString]
  | String c s' =>
      if Ascii.eqb c "010"%char then EmptyString :: split_lf s'
      else match split_lf s' with
           | [] => [String c EmptyString]
           | l :: ls => String c l :: ls
           end
  end.

(** The number of positions of [s] at which [sub] starts. *)
Fixpoint occurrences (sub s : string) : nat :=
  match s with
  | EmptyString => 0
  | String _ s' => (if startsWith sub s then 1 else 0) + occurrences sub s'
  end.

Definition LF : string := String "010"%char EmptyString.

Definition cat (parts : list string) : string := fold_right append EmptyString parts.

(** JSON text is written here with an apostrophe where the text has a
    double quote: [dq] puts the double quotes back. *)
Fixpoint dq (s : string) : string :=
  match s with
  | EmptyString => EmptyString
  | String c s' =>
      String (if Ascii.eqb c "039"%char then "034"%char else c) (dq s')
  end.

Definition nonempty (s : string) : bool :=
  match s with EmptyString => false | String _ _ => true end.

(** Lower case of the letters A-Z; used for the executable instance of
    the engine's [toLowerCase]. *)
Definition lower_ascii (c : ascii) : ascii :=
  let n := nat_of_ascii c in
  if ((65 <=? n) && (n <=? 90))%nat then ascii_of_nat (n + 32) else c.

Fixpoint lower (s : string) : string :=
  match s with
  | EmptyString => EmptyString
  | String c s' => String (lower_ascii c) (lower s')
  end.

End Str.

(* ================================================================= *)
(** ** Numbers

    A JavaScript number that came from a JSON token or a source literal is
    kept as the exact decimal it was written as: [(-1)^neg * mant *
    10^exp10].  The double it denotes is the nearest one; the only thing
    the program asks of a number is whether it is truthy, which can be
    decided on the decimal. *)

Record numlit : Type := NumLit { neg : bool; mant : N; exp10 : Z }.

(** A number is falsy when its double is [+0] or [-0]: the decimal is
    zero, or so small that it rounds to zero (at most [2^-1075]; the tie
    at [2^-1075] goes to the even neighbour, which is zero). *)
Definition number_truthy (n : numlit) : bool :=
  if (mant n =? 0)%N then false
  else if (0 <=? exp10 n)%Z then true
  else (10 ^ (- exp10 n) <? Z.of_N (mant n) * 2 ^ 1075)%Z.

(* ================================================================= *)
(** ** JSON values and the JavaScript operations the program applies to
       them *)

#[warnings="-register-all"]
Inductive json : Type :=
| JNull
| JBool (b : bool)
| JNum (n : numlit)
| JStr (s : string)
| JArr (items : list json)
| JObj (fields : list (string * json)).

(** A JavaScript value position: [None] is [undefined]. *)
Definition jsval : Type := option json.

(** What the embedding takes from the JavaScript engine without
    computing it: Unicode case mapping, the printing of doubles, and the
    sum of two operands that are numbers, booleans or [null]. *)
Class Engine : Type := {
  toLowerCase : string -> string;
  Number_toString : numlit -> string;
  Number_add : json -> json -> numlit
}.

(** The integer a value counts as in a sum, when it is one. *)
Definition integer_of (v : json) : Z :=
  match v with
  | JBool true => 1
  | JNum n =>
      if (0 <=? exp10 n)%Z
      then ((if neg n then -1 else 1) * Z.of_N (mant n) * 10 ^ exp10 n)%Z
      else 0%Z
  | _ => 0%Z
  end.

(** An executable engine for closed examples: it lowers the letters A-Z,
    and prints and adds integers.  The examples hold no other letters and
    no other numbers. *)
Definition ascii_engine : Engine :=
  {| toLowerCase := Str.lower;
     Number_toString := fun n => NilZero.string_of_int (Z.to_int (integer_of (JNum n)));
     Number_add := fun a b =>
       let sum := (integer_of a + integer_of b)%Z in
       NumLit (sum <? 0)%Z (Z.abs_N sum) 0 |}.

Inductive exn : Type := SyntaxError | TypeError.

Inductive completion (A : Type) : Type :=
| Normal (a : A)
| Throw (e : exn).
Arguments Normal {A} a.
Arguments Throw {A} e.

Definition bind {A B} (c : completion A) (k : A -> completion B) : completion B :=
  match c with
  | Normal a => k a
  | Throw e => Throw e
  end.

Notation "x <- c ;; k" := (bind c (fun x => k))
  (at level 61, c at next level, right associativity).

Module Alist.

Fixpoint find {A} (k : string) (l : list (string * A)) : option A :=
  match l with
  | [] => None
  | (k', v) :: l' => if String.eqb k k' then Some v else find k l'
  end.

(** Assignment to a key: an existing key keeps its position. *)
Fixpoint set {A} (k : string) (v : A) (l : list (string * A)) : list (string * A) :=
  match l with
  | [] => [(k, v)]
  | (k', v') :: l' =>
      if String.eqb k k' then (k', v) :: l' else (k', v') :: set k v l'
  end.

Definition remove {A} (k : string) (l : list (string * A)) : list (string * A) :=
  filter (fun kv => negb (String.eqb k (fst kv))) l.

Fixpoint update {A} (k : string) (f : A -> A) (l : list (string * A)) : list (string * A) :=
  match l with
  | [] => []
  | (k', v) :: l' =>
      if String.eqb k k' then (k', f v) :: l' else (k', v) :: update k f l'
  end.

Definition keys {A} (l : list (string * A)) : list string := map fst l.

End Alist.

Module JS.

(** ToBoolean. *)
Definition truthy (v : jsval) : bool :=
  match v with
  | None => false
  | Some JNull => false
  | Some (JBool b) => b
  | Some (JNum n) => number_truthy n
  | Some (JStr s) => Str.nonempty s
  | Some (JArr _) => true
  | Some (JObj _) => true
  end.

(** [a || b] *)
Definition or_else (a : jsval) (b : json) : json :=
  match a with
  | Some v => if truthy a then v else b
  | None => b
  end.

(** [v.key] for the keys the program reads ([choices], [delta],
    [content], [reasoning_content], [message], [role], [index],
    [finish_reason], [usage], [model], [messages], [temperature],
    [max_tokens], [stream]): none of them is defined on a prototype, so
    only an object's own property answers.  [v] is neither [null] nor
    [undefined]. *)
Definition get (v : json) (key : string) : jsval :=
  match v with
  | JObj fields => Alist.find key fields
  | _ => None
  end.

(** [v?.key] *)
Definition get_opt (v : jsval) (key : string) : jsval :=
  match v with
  | None | Some JNull => None
  | Some v' => get v' key
  end.

(** [v?.[0]]: the first element of an array, the property ["0"] of an
    object, the first character of a string. *)
Definition index0_opt (v : jsval) : jsval :=
  match v with
  | Some (JArr (x :: _)) => Some x
  | Some (JObj fields) => Alist.find "0" fields
  | Some (JStr (String c _)) => Some (JStr (String c EmptyString))
  | _ => None
  end.

Definition isArray (v : jsval) : bool :=
  match v with Some (JArr _) => true | _ => false end.

(** [v.length] of an array. *)
Definition length (v : jsval) : nat :=
  match v with Some (JArr items) => List.length items | _ => 0 end.

Definition join (sep : string) (parts : list string) : string :=
  match parts with
  | [] => EmptyString
  | p :: ps => fold_left (fun acc q => (acc ++ sep ++ q)%string) ps p
  end.

Section WithEngine.
Context {E : Engine}.

(** ToString(ToPrimitive(v)), the coercion applied by [+] with a
    string operand and by a property key.  An array prints as its
    elements joined by commas, [null] elements as empty; an object
    prints as [[object Object]] through the inherited [toString],
    unless it has an own property [toString], which JSON cannot make
    callable: then no primitive is reached and a TypeError is
    thrown. *)
Fixpoint toString (v : json) : completion string :=
  match v with
  | JNull => Normal "null"
  | JBool true => Normal "true"
  | JBool false => Normal "false"
  | JNum n => Normal (Number_toString n)
  | JStr s => Normal s
  | JArr items =>
      parts <- (fix each (l : list json) : completion (list string) :=
                  match l with
                  | [] => Normal []
                  | x :: l' =>
                      p <- match x with
                           | JNull => Normal EmptyString
                           | _ => toString x
                           end ;;
                      ps <- each l' ;;
                      Normal (p :: ps)
                  end) items ;;
      Normal (join "," parts)
  | JObj fields =>
      match Alist.find "toString" fields with
      | Some _ => Throw TypeError
      | None => Normal "[object Object]"
      end
  end.

(** [s + v] for a string [s]. *)
Definition concat_right (s : string) (v : json) : completion string :=
  t <- toString v ;; Normal (s ++ t)%string.

(** [l + r]: text as soon as one operand is a string, an array or an
    object (the last two become text first), a number otherwise. *)
Definition add (l r : json) : completion json :=
  let textual (v : json) :=
    match v with JStr _ | JArr _ | JObj _ => true | _ => false end in
  if textual l || textual r then
    a <- toString l ;; b <- toString r ;; Normal (JStr (a ++ b))
  else Normal (JNum (Number_add l r)).

End WithEngine.

(** Writes through a property path.  Assigning a property of an array
    that is not an index, or of a primitive (sloppy mode), leaves the
    JSON tree as it was. *)
Definition set (key : string) (x : json) (v : json) : json :=
  match v with
  | JObj fields => JObj (Alist.set key x fields)
  | _ => v
  end.

Definition delete (key : string) (v : json) : json :=
  match v with
  | JObj fields => JObj (Alist.remove key fields)
  | _ => v
  end.

Definition update (key : string) (f : json -> json) (v : json) : json :=
  match v with
  | JObj fields => JObj (Alist.update key f fields)
  | _ => v
  end.

Definition update0 (f : json -> json) (v : json) : json :=
  match v with
  | JArr (x :: xs) => JArr (f x :: xs)
  | JObj fields => JObj (Alist.update "0" f fields)
  | _ => v
  end.

End JS.

(* ================================================================= *)
(** ** [JSON.parse]

    The JSON grammar of ECMA-404, as [JSON.parse] accepts it: one value
    between optional white space, nothing after it.  A repeated key of an
    object keeps its first position and its last value.  An escape
    [\uXXXX] is written out in UTF-8 (a surrogate pair as one code point,
    a lone surrogate as its three-byte form). *)

Module JSON.

Definition ch (c : ascii) (code : N) : bool := (N_of_ascii c =? code)%N.

Definition is_ws (c : ascii) : bool :=
  ch c 32 || ch c 9 || ch c 10 || ch c 13.

Definition is_digit (c : ascii) : bool :=
  let n := N_of_ascii c in ((48 <=? n) && (n <=? 57))%N.

Definition digit_value (c : ascii) : N := (N_of_ascii c - 48)%N.

Definition hex_value (c : ascii) : option N :=
  let n := N_of_ascii c in
  if ((48 <=? n) && (n <=? 57))%N then Some (n - 48)%N
  else if ((97 <=? n) && (n <=? 102))%N then Some (n - 87)%N
  else if ((65 <=? n) && (n <=? 70))%N then Some (n - 55)%N
  else None.

Fixpoint skip_ws (s : string) : string :=
  match s with
  | String c s' => if is_ws c then skip_ws s' else s
  | EmptyString => s
  end.

(** The digits at the head of [s], read onto [acc]: the value, how many
    digits were read, and the rest. *)
Fixpoint digits (acc : N) (count : nat) (s : string) : N * nat * string :=
  match s with
  | String c s' =>
      if is_digit c then digits (acc * 10 + digit_value c)%N (S count) s'
      else (acc, count, s)
  | EmptyString => (acc, count, s)
  end.

(** A number token: an optional minus; a zero, or a digit 1-9 followed by
    digits; optionally a point and at least one digit; optionally [e] or
    [E], a sign and at least one digit. *)
Definition parse_number (s : string) : option (numlit * string) :=
  let '(negative, s1) :=
    match s with
    | String c s' => if ch c 45 then (true, s') else (false, s)
    | EmptyString => (false, s)
    end in
  let int_part :=
    match s1 with
    | String c s' =>
        if ch c 48 then Some (0%N, s')
        else if is_digit c then
          let '(m, _, r) := digits 0 0 s1 in Some (m, r)
        else None
    | EmptyString => None
    end in
  match int_part with
  | None => None
  | Some (m, s2) =>
      let frac_part :=
        match s2 with
        | String c s' =>
            if ch c 46 then
              let '(m', count, r) := digits m 0 s' in
              match count with
              | O => None
              | S _ => Some (m', count, r)
              end
            else Some (m, O, s2)
        | EmptyString => Some (m, O, s2)
        end in
      match frac_part with
      | None => None
      | Some (m', scale, s3) =>
          let exp_part :=
            match s3 with
            | String c s' =>
                if ch c 101 || ch c 69 then
                  let '(minus, s4) :=
                    match s' with
                    | String d s'' =>
                        if ch d 45 then (true, s'')
                        else if ch d 43 then (false, s'')
                        else (false, s')
                    | EmptyString => (false, s')
                    end in
                  let '(e, count, r) := digits 0 0 s4 in
                  match count with
                  | O => None
                  | S _ => Some ((if minus then - Z.of_N e else Z.of_N e)%Z, r)
                  end
                else Some (0%Z, s3)
            | EmptyString => Some (0%Z, s3)
            end in
          match exp_part with
          | None => None
          | Some (e, rest) =>
              Some (NumLit negative m' (e - Z.of_nat scale)%Z, rest)
          end
      end
  end.

Definition byte (n : N) : ascii := ascii_of_N n.

(** The UTF-8 bytes of a code point (of a lone surrogate too). *)
Definition utf8 (cp : N) : string :=
  if (cp <? 128)%N then String (byte cp) EmptyString
  else if (cp <? 2048)%N then
    String (byte (192 + cp / 64))
      (String (byte (128 + cp mod 64)) EmptyString)
  else if (cp <? 65536)%N then
    String (byte (224 + cp / 4096))
      (String (byte (128 + (cp / 64) mod 64))
         (String (byte (128 + cp mod 64)) EmptyString))
  else
    String (byte (240 + cp / 262144))
      (String (byte (128 + (cp / 4096) mod 64))
         (String (byte (128 + (cp / 64) mod 64))
            (String (byte (128 + cp mod 64)) EmptyString))).

Definition hex4 (a b c d : ascii) : option N :=
  match hex_value a, hex_value b, hex_value c, hex_value d with
  | Some x, Some y, Some z, Some w => Some (((x * 16 + y) * 16 + z) * 16 + w)%N
  | _, _, _, _ => None
  end.

Definition is_high_surrogate (u : N) : bool := ((55296 <=? u) && (u <=? 56319))%N.
Definition is_low_surrogate (u : N) : bool := ((56320 <=? u) && (u <=? 57343))%N.

(** The low surrogate escape at the head of [s], if there is one. *)
Definition low_surrogate_escape (s : string) : option (N * string) :=
  match s with
  | String b (String u (String w (String x (String y (String z rest))))) =>
      if ch b 92 && ch u 117 then
        match hex4 w x y z with
        | Some lo => if is_low_surrogate lo then Some (lo, rest) else None
        | None => None
        end
      else None
  | _ => None
  end.

Definition simple_escape (c : ascii) : option ascii :=
  if ch c 34 then Some (byte 34)
  else if ch c 92 then Some (byte 92)
  else if ch c 47 then Some (byte 47)
  else if ch c 98 then Some (byte 8)
  else if ch c 102 then Some (byte 12)
  else if ch c 110 then Some (byte 10)
  else if ch c 114 then Some (byte 13)
  else if ch c 116 then Some (byte 9)
  else None.

(** The characters of a string token after its opening quote, up to and
    without the closing quote. *)
Fixpoint parse_chars (s : string) : option (string * string) :=
  match s with
  | EmptyString => None
  | String c s' =>
      if ch c 34 then Some (EmptyString, s')
      else if ch c 92 then
        match s' with
        | EmptyString => None
        | String e s'' =>
            if ch e 117 then
              match s'' with
              | String w (String x (String y (String z s3))) =>
                  match hex4 w x y z with
                  | None => None
                  | Some u =>
                      match
                        (if is_high_surrogate u then
                           match s3 with
                           | String b (String v (String w' (String x' (String y' (String z' s4))))) =>
                               if ch b 92 && ch v 117 then
                                 match hex4 w' x' y' z' with
                                 | Some lo =>
                                     if is_low_surrogate lo
                                     then Some (65536 + (u - 55296) * 1024 + (lo - 56320), parse_chars s4)%N
                                     else None
                                 | None => None
                                 end
                               else None
                           | _ => None
                           end
                         else None)
                      with
                      | Some (cp, Some (str, rest)) => Some ((utf8 cp ++ str)%string, rest)
                      | Some (_, None) => None
                      | None =>
                          match parse_chars s3 with
                          | Some (str, rest) => Some ((utf8 u ++ str)%string, rest)
                          | None => None
                          end
                      end
                  end
              | _ => None
              end
            else
              match simple_escape e with
              | None => None
              | Some c' =>
                  match parse_chars s'' with
                  | Some (str, rest) => Some (String c' str, rest)
                  | None => None
                  end
              end
        end
      else if (N_of_ascii c <? 32)%N then None
      else
        match parse_chars s' with
        | Some (str, rest) => Some (String c str, rest)
        | None => None
        end
  end.

Fixpoint parse_value (fuel : nat) (s : string) {struct fuel} : option (json * string) :=
  match fuel with
  | O => None
  | S fuel' =>
      match skip_ws s with
      | EmptyString => None
      | String c rest as t =>
          if ch c 123 then
            match skip_ws rest with
            | String c' rest' =>
                if ch c' 125 then Some (JObj [], rest')
                else parse_members fuel' [] rest
            | EmptyString => None
            end
          else if ch c 91 then
            match skip_ws rest with
            | String c' rest' =>
                if ch c' 93 then Some (JArr [], rest')
                else parse_elements fuel' [] rest
            | EmptyString => None
            end
          else if ch c 34 then
            match parse_chars rest with
            | Some (str, r) => Some (JStr str, r)
            | None => None
            end
          else if Str.startsWith "true" t then Some (JBool true, Str.slice 4 t)
          else if Str.startsWith "false" t then Some (JBool false, Str.slice 5 t)
          else if Str.startsWith "null" t then Some (JNull, Str.slice 4 t)
          else
            match parse_number t with
            | Some (n, r) => Some (JNum n, r)
            | None => None
            end
      end
  end

with parse_elements (fuel : nat) (acc : list json) (s : string) {struct fuel}
  : option (json * string) :=
  match fuel with
  | O => None
  | S fuel' =>
      match parse_value fuel' s with
      | None => None
      | Some (v, r) =>
          match skip_ws r with
          | String c r' =>
              if ch c 44 then parse_elements fuel' (acc ++ [v]) r'
              else if ch c 93 then Some (JArr (acc ++ [v]), r')
              else None
          | EmptyString => None
          end
      end
  end

with parse_members (fuel : nat) (acc : list (string * json)) (s : string) {struct fuel}
  : option (json * string) :=
  match fuel with
  | O => None
  | S fuel' =>
      match skip_ws s with
      | String q r =>
          if ch q 34 then
            match parse_chars r with
            | None => None
            | Some (key, r1) =>
                match skip_ws r1 with
                | String c1 r2 =>
                    if ch c1 58 then
                      match parse_value fuel' r2 with
                      | None => None
                      | Some (v, r3) =>
                          match skip_ws r3 with
                          | String c3 r4 =>
                              if ch c3 44 then parse_members fuel' (Alist.set key v acc) r4
                              else if ch c3 125 then Some (JObj (Alist.set key v acc), r4)
                              else None
                          | EmptyString => None
                          end
                      end
                    else None
                | EmptyString => None
                end
            end
          else None
      | EmptyString => None
      end
  end.

(** [JSON.parse(text)]; any failure is a SyntaxError. *)
Definition parse (text : string) : completion json :=
  match parse_value (2 * String.length text + 2) text with
  | Some (v, rest) =>
      match skip_ws rest with
      | EmptyString => Normal v
      | String _ _ => Throw SyntaxError
      end
  | None => Throw SyntaxError
  end.

End JSON.

(* ================================================================= *)
(** ** Configuration (server.js, lines 24-28) *)

Record config : Type := Config {
  SHOW_REASONING : bool;
  ENABLE_THINKING_MODE : bool;
  MAX_CACHE_SIZE : nat;
  FORCE_STREAMING : bool
}.

(** The constants as the source sets them. *)
Definition shipped : config :=
  {| SHOW_REASONING := false;
     ENABLE_THINKING_MODE := false;
     MAX_CACHE_SIZE := 100;
     FORCE_STREAMING := true |}.

(** The same with reasoning merged into the visible content. *)
Definition merging : config :=
  {| SHOW_REASONING := true;
     ENABLE_THINKING_MODE := false;
     MAX_CACHE_SIZE := 100;
     FORCE_STREAMING := true |}.

(* ================================================================= *)
(** ** Model resolution (server.js, lines 30-42 and 71-101) *)

(** [validatedModels]: a [Map] from requested names to fallback models,
    oldest insertion first.  Only strings are ever inserted as keys. *)
Module Map.

Definition t : Type := list (string * string).

Definition has (k : string) (m : t) : bool :=
  match Alist.find k m with Some _ => true | None => false end.

Definition get (k : string) (m : t) : option string := Alist.find k m.

Definition size (m : t) : nat := List.length m.

(** [m.keys().next().value]: [undefined] on an empty map. *)
Definition first_key (m : t) : option string :=
  match m with
  | [] => None
  | (k, _) :: _ => Some k
  end.

(** [m.delete(k)]; deleting [undefined] removes nothing. *)
Definition delete (k : option string) (m : t) : t :=
  match k with
  | Some k' => Alist.remove k' m
  | None => m
  end.

(** [m.set(k, v)]: a new key goes last, a present key keeps its place. *)
Definition set (k v : string) (m : t) : t := Alist.set k v m.

End Map.

Definition MODEL_MAPPING : list (string * string) :=
  [ ("gpt-3.5-turbo", "nvidia/llama-3.1-nemotron-ultra-253b-v1");
    ("gpt-4", "qwen/qwen3-coder-480b-a35b-instruct");
    ("gpt-4-turbo", "moonshotai/kimi-k2-instruct-0905");
    ("gpt-4o", "deepseek-ai/deepseek-v3.1");
    ("claude-3-opus", "openai/gpt-oss-120b");
    ("claude-3-sonnet", "openai/gpt-oss-20b");
    ("gemini-pro", "qwen/qwen3-next-80b-a3b-thinking") ].

(** [MODEL_MAPPING] is an object literal, so a property read on it also
    finds what every object inherits from [Object.prototype]: functions,
    and for [__proto__] the prototype itself. *)
Definition Object_prototype : list string :=
  [ "constructor"; "hasOwnProperty"; "isPrototypeOf"; "propertyIsEnumerable";
    "toLocaleString"; "toString"; "valueOf"; "__proto__";
    "__defineGetter__"; "__defineSetter__"; "__lookupGetter__"; "__lookupSetter__" ].

(** What [getOptimalModel] can return. *)
Inductive model_ref : Type :=
| BackendModel (name : string)
| PrototypeMember (key : string).

Definition model_ref_truthy (r : model_ref) : bool :=
  match r with
  | BackendModel name => Str.nonempty name
  | PrototypeMember _ => true
  end.

(** [MODEL_MAPPING[key]] *)
Definition MODEL_MAPPING_get (key : string) : option model_ref :=
  match Alist.find key MODEL_MAPPING with
  | Some name => Some (BackendModel name)
  | None =>
      if existsb (String.eqb key) Object_prototype then Some (PrototypeMember key)
      else None
  end.

(** Lines 84-92: the fallback chosen from the lower-cased name. *)
Definition fallback_for (modelLower : string) : string :=
  if Str.includes "deepseek" modelLower then "deepseek-ai/deepseek-v3.1"
  else if Str.includes "gpt-4" modelLower || Str.includes "claude-opus" modelLower
          || Str.includes "405b" modelLower then "meta/llama-3.1-405b-instruct"
  else if Str.includes "claude" modelLower || Str.includes "gemini" modelLower
          || Str.includes "70b" modelLower then "meta/llama-3.1-70b-instruct"
  else "deepseek-ai/deepseek-v3.1".

(** A cache as the program can build it: no key twice, and no more
    entries than the bound. *)
Definition cache_ok (cfg : config) (cache : Map.t) : Prop :=
  NoDup (Alist.keys cache) /\ Map.size cache <= MAX_CACHE_SIZE cfg.

Section Resolver.
Context {E : Engine}.

(** [getOptimalModel(requestedModel)], with [validatedModels] passed in
    and out.  The argument is whatever [model || 'gpt-4o'] evaluated to:
    a property read coerces it to a key, [Map.has] finds only strings, and
    [toLowerCase] exists only on a string. *)
Definition getOptimalModel (cfg : config) (requestedModel : json) (validatedModels : Map.t)
  : completion model_ref * Map.t :=
  match JS.toString requestedModel with
  | Throw e => (Throw e, validatedModels)
  | Normal key =>
      let unmapped :=
        match requestedModel with
        | JStr name =>
            match Map.get name validatedModels with
            | Some cached => (Normal (BackendModel cached), validatedModels)
            | None =>
                let modelLower := toLowerCase name in
                let fallbackModel := fallback_for modelLower in
                let evicted :=
                  if (MAX_CACHE_SIZE cfg <=? Map.size validatedModels)%nat
                  then Map.delete (Map.first_key validatedModels) validatedModels
                  else validatedModels in
                (Normal (BackendModel fallbackModel), Map.set name fallbackModel evicted)
            end
        | _ => (Throw TypeError, validatedModels)
        end in
      match MODEL_MAPPING_get key with
      | Some hit => if model_ref_truthy hit then (Normal hit, validatedModels) else unmapped
      | None => unmapped
      end
  end.

(** A sequence of calls, one for each requested model: the cache after
    the last one. *)
Definition resolve_all (cfg : config) (requested : list json) (validatedModels : Map.t) : Map.t :=
  fold_left (fun cache requestedModel => snd (getOptimalModel cfg requestedModel cache))
            requested validatedModels.

End Resolver.

(* ================================================================= *)
(** ** The request, up to the backend call (server.js, lines 104-150) *)

Inductive error_message : Type :=
| Text (s : string)
| EngineText.   (* the message of an error thrown by the engine *)

Record error_body : Type := ErrorBody {
  message : error_message;
  type : string;
  code : nat
}.

Record nimRequest : Type := NimRequest {
  model : model_ref;
  messages : jsval;
  temperature : json;
  max_tokens : json;
  stream : jsval;
  extra_body : option json
}.

(** What the handler does next: answer with a status and an error
    envelope, or post the request to the backend. *)
Inductive outcome : Type :=
| Reply (status : nat) (body : error_body)
| Post (request : nimRequest).

Definition literal_0_6 : json := JNum (NumLit false 6 (-1)).
Definition literal_2048 : json := JNum (NumLit false 2048 0).

Section Handler.
Context {E : Engine}.

(** The handler of [POST /v1/chat/completions] on [req.body], up to the
    call of [axios.post]; an exception before it is caught at line 280 and
    answered with status 500, no header having been sent. *)
Definition chat_completions (cfg : config) (body : json) (validatedModels : Map.t)
  : outcome * Map.t :=
  let failed := Reply 500 (ErrorBody EngineText "invalid_request_error" 500) in
  match body with
  | JNull => (failed, validatedModels)
  | _ =>
      let model := JS.get body "model" in
      let messages := JS.get body "messages" in
      let temperature := JS.get body "temperature" in
      let max_tokens := JS.get body "max_tokens" in
      let stream := JS.get body "stream" in
      if negb (JS.truthy messages) || negb (JS.isArray messages)
         || (JS.length messages =? 0)%nat
      then
        (Reply 400
           (ErrorBody (Text "messages field is required and must be a non-empty array")
                      "invalid_request_error" 400),
         validatedModels)
      else
        match getOptimalModel cfg (JS.or_else model (JStr "gpt-4o")) validatedModels with
        | (Throw _, cache) => (failed, cache)
        | (Normal nimModel, cache) =>
            let useStreaming :=
              if FORCE_STREAMING cfg then Some (JBool true) else stream in
            (Post {| model := nimModel;
                     messages := messages;
                     temperature := JS.or_else temperature literal_0_6;
                     max_tokens := JS.or_else max_tokens literal_2048;
                     stream := useStreaming;
                     extra_body :=
                       if ENABLE_THINKING_MODE cfg
                       then Some (JObj [("chat_template_kwargs",
                                         JObj [("thinking", JBool true)])])
                       else None |},
             cache)
        end
  end.

End Handler.

(* ================================================================= *)
(** ** The streaming path (server.js, lines 152-243) *)

Definition THINK_OPEN : string := "<think>" ++ Str.LF.
Definition THINK_CLOSE : string := "</think>" ++ Str.LF ++ Str.LF.

(** The variables of one stream that the [data] handler reads and
    writes ([firstChunkReceived] only guards a log line). *)
Record StreamState : Type := {
  buffer : string;
  reasoningStarted : bool
}.

(** One call of [res.write]: a text, or an event, which stands for the
    text ["data: " + JSON.stringify(data) + "\n\n"]. *)
Inductive written : Type :=
| Raw (text : string)
| Event (data : json).

(** [data.choices?.[0]?.delta] *)
Definition first_delta (data : json) : jsval :=
  JS.get_opt (JS.index0_opt (JS.get data "choices")) "delta".

(** A write to [data.choices[0].delta]. *)
Definition on_first_delta (f : json -> json) (data : json) : json :=
  JS.update "choices" (JS.update0 (JS.update "delta" f)) data.

Section Transcoder.
Context {E : Engine}.

(** Lines 192-206: [combinedContent] and the new [reasoningStarted].  The
    flag keeps what was assigned before an exception. *)
Definition combine (reasoningStarted : bool) (reasoning content : jsval)
  : bool * completion json :=
  let first :=
    match reasoning with
    | Some r =>
        if JS.truthy reasoning && negb reasoningStarted then
          match JS.concat_right THINK_OPEN r with
          | Normal s => (true, Normal (JStr s))
          | Throw e => (reasoningStarted, Throw e)
          end
        else if JS.truthy reasoning then (reasoningStarted, Normal r)
        else (reasoningStarted, Normal (JStr EmptyString))
    | None => (reasoningStarted, Normal (JStr EmptyString))
    end in
  match first with
  | (started, Throw e) => (started, Throw e)
  | (started, Normal combinedContent) =>
      match content with
      | Some c =>
          if JS.truthy content && started then
            match (s <- JS.concat_right THINK_CLOSE c ;; JS.add combinedContent (JStr s)) with
            | Normal combined => (false, Normal combined)
            | Throw e => (started, Throw e)
            end
          else if JS.truthy content then (started, JS.add combinedContent c)
          else (started, Normal combinedContent)
      | None => (started, Normal combinedContent)
      end
  end.

(** Lines 187-216: the body of the [try] after [JSON.parse]. *)
Definition transcode (cfg : config) (reasoningStarted : bool) (data : json)
  : bool * completion json :=
  match data with
  | JNull => (reasoningStarted, Throw TypeError)
  | _ =>
      let delta := first_delta data in
      if JS.truthy delta then
        let reasoning := JS.get_opt delta "reasoning_content" in
        let content := JS.get_opt delta "content" in
        if SHOW_REASONING cfg then
          match combine reasoningStarted reasoning content with
          | (started, Throw e) => (started, Throw e)
          | (started, Normal combinedContent) =>
              if JS.truthy (Some combinedContent) then
                (started,
                 Normal (on_first_delta
                           (fun d => JS.delete "reasoning_content"
                                       (JS.set "content" combinedContent d)) data))
              else (started, Normal data)
          end
        else
          (reasoningStarted,
           Normal (on_first_delta
                     (fun d => JS.delete "reasoning_content"
                                 (JS.set "content" (JS.or_else content (JStr EmptyString)) d))
                     data))
      else (reasoningStarted, Normal data)
  end.

(** Lines 179-222: one line of the backend stream. *)
Definition handle_line (cfg : config) (reasoningStarted : bool) (line : string)
  : bool * list written :=
  if Str.startsWith "data: " line then
    if Str.includes "[DONE]" line then
      (reasoningStarted, [Raw (line ++ Str.LF ++ Str.LF)])
    else
      match JSON.parse (Str.slice 6 line) with
      | Throw _ => (reasoningStarted, [Raw (line ++ Str.LF)])
      | Normal data =>
          match transcode cfg reasoningStarted data with
          | (started, Normal data') => (started, [Event data'])
          | (started, Throw _) => (started, [Raw (line ++ Str.LF)])
          end
      end
  else (reasoningStarted, []).

(** [lines.forEach(...)] *)
Fixpoint handle_lines (cfg : config) (reasoningStarted : bool) (lines : list string)
  : bool * list written :=
  match lines with
  | [] => (reasoningStarted, [])
  | line :: rest =>
      let '(started, out) := handle_line cfg reasoningStarted line in
      let '(final, out') := handle_lines cfg started rest in
      (final, out ++ out')
  end.

(** Lines 168-224: the [data] handler on one chunk. *)
Definition on_data (cfg : config) (st : StreamState) (chunk : string)
  : StreamState * list written :=
  let lines := Str.split_lf (buffer st ++ chunk) in
  let '(started, out) := handle_lines cfg (reasoningStarted st) (removelast lines) in
  ({| buffer := last lines EmptyString; reasoningStarted := started |}, out).

(** The events of a stream, transcoded one after the other (the [try]
    body alone, on parsed events): the final flag and, for each event,
    what was written or [None] where the body threw. *)
Fixpoint transcode_all (cfg : config) (reasoningStarted : bool) (events : list json)
  : bool * list (option json) :=
  match events with
  | [] => (reasoningStarted, [])
  | data :: rest =>
      let '(started, result) := transcode cfg reasoningStarted data in
      let '(final, results) := transcode_all cfg started rest in
      (final, match result with Normal d => Some d | Throw _ => None end :: results)
  end.

End Transcoder.

(* ================================================================= *)
(** ** The non-streaming path (server.js, lines 245-278) *)

Record choice_out : Type := ChoiceOut {
  index : jsval;
  role : jsval;
  content : json;
  finish_reason : jsval
}.

(** [openaiResponse] without [id] and [created], which come from the
    clock. *)
Record openaiResponse : Type := OpenAIResponse {
  object : string;
  response_model : jsval;
  choices : list choice_out;
  usage : json
}.

Definition zero_usage : json :=
  JObj [("prompt_tokens", JNum (NumLit false 0 0));
        ("completion_tokens", JNum (NumLit false 0 0));
        ("total_tokens", JNum (NumLit false 0 0))].

Section Assembler.
Context {E : Engine}.

(** Lines 254-269: the function mapped over [response.data.choices]. *)
Definition assemble_choice (cfg : config) (choice : json) : completion choice_out :=
  match choice with
  | JNull => Throw TypeError
  | _ =>
      let message := JS.get choice "message" in
      let fullContent := JS.or_else (JS.get_opt message "content") (JStr EmptyString) in
      fullContent' <-
        match JS.get_opt message "reasoning_content" with
        | Some reasoning =>
            if SHOW_REASONING cfg && JS.truthy (Some reasoning) then
              a <- JS.concat_right THINK_OPEN reasoning ;;
              b <- JS.concat_right (a ++ Str.LF ++ THINK_CLOSE) fullContent ;;
              Normal (JStr b)
            else Normal fullContent
        | None => Normal fullContent
        end ;;
      match message with
      | None | Some JNull => Throw TypeError
      | Some m =>
          Normal {| index := JS.get choice "index";
                    role := JS.get m "role";
                    content := fullContent';
                    finish_reason := JS.get choice "finish_reason" |}
      end
  end.

Fixpoint map_choices (cfg : config) (items : list json) : completion (list choice_out) :=
  match items with
  | [] => Normal []
  | choice :: rest =>
      c <- assemble_choice cfg choice ;;
      cs <- map_choices cfg rest ;;
      Normal (c :: cs)
  end.

(** Lines 249-275, on [response.data] and the caller's [model]. *)
Definition assemble (cfg : config) (model : jsval) (data : json) : completion openaiResponse :=
  match data with
  | JNull => Throw TypeError
  | _ =>
      match JS.get data "choices" with
      | Some (JArr items) =>
          cs <- map_choices cfg items ;;
          Normal {| object := "chat.completion";
                    response_model := model;
                    choices := cs;
                    usage := JS.or_else (JS.get data "usage") zero_usage |}
      | _ => Throw TypeError
      end
  end.

End Assembler.

(** A backend event with one choice whose delta carries the given
    fragments. *)
Definition delta_event (reasoning content : option string) : json :=
  JObj [("choices",
         JArr [JObj [("index", JNum (NumLit false 0 0));
                     ("delta",
                      JObj ((match reasoning with
                             | Some r => [("reasoning_content", JStr r)]
                             | None => []
                             end)
                            ++ (match content with
                                | Some c => [("content", JStr c)]
                                | None => []
                                end)))]])].

Definition reasoning_delta (r : string) : json := delta_event (Some r) None.
Definition visible_delta (c : string) : json := delta_event None (Some c).

(** The data line of an event with one choice and one fragment. *)
Definition delta_line (field text : string) : string :=
  (Str.dq "data: {'choices':[{'index':0,'delta':{'" ++ field
   ++ Str.dq "':'" ++ text ++ Str.dq "'}}]}")%string.

(** The visible text an emitted event carries in its first choice. *)
Definition emitted_content (ev : option json) : string :=
  match ev with
  | Some data =>
      match JS.get_opt (first_delta data) "content" with
      | Some (JStr s) => s
      | _ => EmptyString
      end
  | None => EmptyString
  end.

(** Whether the delta of some choice of an event still has a
    [reasoning_content] property. *)
Definition delta_has_reasoning (choice : json) : bool :=
  match JS.get_opt (JS.get choice "delta") "reasoning_content" with
  | Some _ => true
  | None => false
  end.

(** The visible text of a run of events, as a client concatenates it. *)
Definition emitted_text {E : Engine} (cfg : config) (started : bool) (events : list json)
  : string :=
  Str.cat (map emitted_content (snd (transcode_all cfg started events))).

Definition carries_reasoning (data : json) : bool :=
  match JS.get data "choices" with
  | Some (JArr choices) => existsb delta_has_reasoning choices
  | _ => false
  end.

(* ================================================================= *)
(** ** The other endpoints, and a run of requests *)

(** [GET /v1/models] (lines 57-69): one entry for each key of
    [MODEL_MAPPING], in the order of the literal; [clock i] is what
    [Date.now()] answers for the entry at position [i]. *)
Definition models_entry (created : json) (id : string) : json :=
  JObj [("id", JStr id); ("object", JStr "model"); ("created", created);
        ("owned_by", JStr "nvidia-nim-proxy")].

Fixpoint models_entries (clock : nat -> json) (i : nat) (ids : list string) : list json :=
  match ids with
  | [] => []
  | id :: rest => models_entry (clock i) id :: models_entries clock (S i) rest
  end.

Definition list_models (clock : nat -> json) : json :=
  JObj [("object", JStr "list");
        ("data", JArr (models_entries clock 0 (Alist.keys MODEL_MAPPING)))].

(** The [id] of every entry of a model list. *)
Definition listed_ids (response : json) : list string :=
  match JS.get response "data" with
  | Some (JArr entries) =>
      flat_map (fun entry => match JS.get entry "id" with
                             | Some (JStr id) => [id]
                             | _ => []
                             end) entries
  | _ => []
  end.

(** [GET /health] (lines 45-54). *)
Definition health (cfg : config) (validatedModels : Map.t) : json :=
  JObj [("status", JStr "ok");
        ("service", JStr "OpenAI to NVIDIA NIM Proxy");
        ("reasoning_display", JBool (SHOW_REASONING cfg));
        ("thinking_mode", JBool (ENABLE_THINKING_MODE cfg));
        ("forced_streaming", JBool (FORCE_STREAMING cfg));
        ("cached_models", JNum (NumLit false (N.of_nat (Map.size validatedModels)) 0))].

(** The three models the heuristics can choose. *)
Definition fallback_models : list string :=
  [ "deepseek-ai/deepseek-v3.1"; "meta/llama-3.1-405b-instruct";
    "meta/llama-3.1-70b-instruct" ].

Section Requests.
Context {E : Engine}.

(** The chat-completion handler on one request body after the other:
    the cache after the last one. *)
Definition serve_all (cfg : config) (bodies : list json) (validatedModels : Map.t) : Map.t :=
  fold_left (fun cache body => snd (chat_completions cfg body cache)) bodies validatedModels.

End Requests.

(** A choice of a backend response that has a message to read a role
    from: [choice.message] is neither [undefined] nor [null]. *)
Definition has_message (choice : json) : bool :=
  match JS.get choice "message" with
  | None | Some JNull => false
  | Some _ => true
  end.

(* ================================================================= *)
(** ** Lines that are transcoded, and the fragments they bring *)

(** A line of the stream that reaches the merge or pass-through code: it
    starts with the data prefix, does not contain the sentinel text, its
    payload parses to [data], and the delta of the first choice of [data]
    is an object with the fields [fields]. *)
Definition transcoded_line (line : string) (data : json) (fields : list (string * json))
  : Prop :=
  Str.startsWith "data: " line = true
  /\ Str.includes "[DONE]" line = false
  /\ JSON.parse (Str.slice 6 line) = Normal data
  /\ first_delta data = Some (JObj fields).



(** A transcoded line whose visible text is [text]: its [content] is that
    string, or is falsy and [text] is empty; the reasoning is anything. *)
Definition plain_line (line text : string) : Prop :=
  exists data fields,
    transcoded_line line data fields
    /\ (Alist.find "content" fields = Some (JStr text)
        \/ (JS.truthy (Alist.find "content" fields) = false /\ text = EmptyString)).

(* ================================================================= *)
(** ** Example inputs *)

Definition one_message : json :=
  JArr [JObj [("role", JStr "user"); ("content", JStr "hi")]].

(** [{"messages":[{"role":"user","content":"hi"}],"temperature":0}] *)
Definition body_temperature_zero : json :=
  JObj [("messages", one_message); ("temperature", JNum (NumLit false 0 0))].

(** [{"model":"constructor","messages":[{"role":"user","content":"hi"}]}] *)
Definition body_model_constructor : json :=
  JObj [("model", JStr "constructor"); ("messages", one_message)].

(** A data line that is a well-formed event whose visible text is the
    six characters of the sentinel. *)
Definition done_in_content_line : string :=
  Str.dq "data: {'choices':[{'index':0,'delta':{'content':'[DONE]','reasoning_content':'hidden'}}]}".

Definition done_in_content_event : json :=
  JObj [("choices",
         JArr [JObj [("index", JNum (NumLit false 0 0));
                     ("delta", JObj [("content", JStr "[DONE]");
                                     ("reasoning_content", JStr "hidden")])]])].

(** An event with two choices, each delta with both fragments, and what
    the pass-through mode and the merge mode write for it. *)
Definition two_choice_line : string :=
  Str.dq "data: {'choices':[{'index':0,'delta':{'content':'a','reasoning_content':'r0'}},{'index':1,'delta':{'content':'b','reasoning_content':'r1'}}]}".

Definition two_choice_written (first_content : string) : json :=
  JObj [("choices",
         JArr [JObj [("index", JNum (NumLit false 0 0));
                     ("delta", JObj [("content", JStr first_content)])];
               JObj [("index", JNum (NumLit false 1 0));
                     ("delta", JObj [("content", JStr "b");
                                     ("reasoning_content", JStr "r1")])]])].

(** The first event of a stream as backends send it: a role, an empty
    content and a [reasoning_content] that is [null]. *)
Definition role_only_line : string :=
  Str.dq "data: {'choices':[{'index':0,'delta':{'role':'assistant','content':'','reasoning_content':null}}]}".

Definition role_only_event : json :=
  JObj [("choices",
         JArr [JObj [("index", JNum (NumLit false 0 0));
                     ("delta", JObj [("role", JStr "assistant");
                                     ("content", JStr EmptyString);
                                     ("reasoning_content", JNull)])]])].

(** An event as a backend sends it, with fields around the fragments. *)
Definition full_event : json :=
  JObj [("id", JStr "chatcmpl-1");
        ("choices",
         JArr [JObj [("index", JNum (NumLit false 0 0));
                     ("delta", JObj [("role", JStr "assistant");
                                     ("reasoning_content", JStr "why");
                                     ("content", JStr "so")]);
                     ("finish_reason", JNull)]]);
        ("usage", JNull)].

Definition full_event_written (text : string) : json :=
  JObj [("id", JStr "chatcmpl-1");
        ("choices",
         JArr [JObj [("index", JNum (NumLit false 0 0));
                     ("delta", JObj [("role", JStr "assistant");
                                     ("content", JStr text)]);
                     ("finish_reason", JNull)]]);
        ("usage", JNull)].

(** Lines as backends send them, the fragment that is not there being
    [null], and one with both fragments. *)
Definition null_content_line : string :=
  Str.dq "data: {'id':'c1','choices':[{'index':0,'delta':{'role':'assistant','content':null,'reasoning_content':'why'},'finish_reason':null}]}".

Definition null_reasoning_line : string :=
  Str.dq "data: {'id':'c1','choices':[{'index':0,'delta':{'content':'so','reasoning_content':null},'finish_reason':null}]}".

Definition both_fragments_line : string :=
  Str.dq "data: {'id':'c1','choices':[{'index':0,'delta':{'reasoning_content':'why','content':'so'},'finish_reason':null}]}".

(** A complete choice of a non-streaming backend response. *)
Definition reasoned_choice : json :=
  JObj [("index", JNum (NumLit false 0 0));
        ("message", JObj [("role", JStr "assistant");
                          ("content", JStr "c");
                          ("reasoning_content", JStr "r")]);
        ("finish_reason", JStr "stop")].

(* ================================================================= *)
(** * Properties *)

(** ** Association lists *)

Lemma find_set_same {A} (k : string) (v : A) (l : list (string * A)) :
  Alist.find k (Alist.set k v l) = Some v.
Proof.
  induction l as [|[k' v'] l IH]; simpl.
  - now rewrite String.eqb_refl.
  - destruct (String.eqb k k') eqn:Hk; simpl; rewrite Hk; auto.
Qed.

Lemma find_set_other {A} (k k' : string) (v : A) (l : list (string * A)) :
  k' <> k -> Alist.find k' (Alist.set k v l) = Alist.find k' l.
Proof.
  intros Hne. induction l as [|[k0 v0] l IH]; simpl.
  - destruct (String.eqb_spec k' k); congruence.
  - destruct (String.eqb_spec k k0) as [->|Hk]; simpl.
    + destruct (String.eqb_spec k' k0); congruence.
    + destruct (String.eqb_spec k' k0); auto.
Qed.

Lemma find_remove_same {A} (k : string) (l : list (string * A)) :
  Alist.find k (Alist.remove k l) = None.
Proof.
  unfold Alist.remove. induction l as [|[k' v'] l IH]; simpl; auto.
  destruct (String.eqb k k') eqn:Hk; simpl; auto. now rewrite Hk.
Qed.

Lemma find_remove_other {A} (k k' : string) (l : list (string * A)) :
  k <> k' -> Alist.find k (Alist.remove k' l) = Alist.find k l.
Proof.
  intros Hne. unfold Alist.remove. induction l as [|[k0 v0] l IH]; simpl; auto.
  destruct (String.eqb_spec k' k0) as [->|Hk]; simpl.
  - destruct (String.eqb_spec k k0); congruence.
  - now rewrite IH.
Qed.

Lemma find_update_same {A} (k : string) (f : A -> A) (l : list (string * A)) :
  Alist.find k (Alist.update k f l) = option_map f (Alist.find k l).
Proof.
  induction l as [|[k' v'] l IH]; simpl; auto.
  destruct (String.eqb k k') eqn:Hk; simpl; rewrite Hk; auto.
Qed.

Lemma find_none_not_in {A} (k : string) (l : list (string * A)) :
  Alist.find k l = None <-> ~ In k (Alist.keys l).
Proof.
  induction l as [|[k' v'] l IH]; simpl.
  - tauto.
  - destruct (String.eqb_spec k k') as [->|Hk].
    + split; [discriminate | intros Hn; exfalso; auto].
    + rewrite IH. split; [intros Hn [Heq|Hin]; auto | intros Hn Hin; auto].
Qed.

Lemma set_fresh {A} (k : string) (v : A) (l : list (string * A)) :
  Alist.find k l = None -> Alist.set k v l = l ++ [(k, v)].
Proof.
  induction l as [|[k' v'] l IH]; simpl; auto.
  destruct (String.eqb k k'); [discriminate|]. intros Hn. now rewrite IH.
Qed.

Lemma remove_absent {A} (k : string) (l : list (string * A)) :
  ~ In k (Alist.keys l) -> Alist.remove k l = l.
Proof.
  unfold Alist.remove. induction l as [|[k' v'] l IH]; simpl; auto.
  intros Hn. destruct (String.eqb_spec k k') as [->|Hk].
  - exfalso; auto.
  - simpl. rewrite IH; auto.
Qed.

Lemma remove_head {A} (k : string) (v : A) (l : list (string * A)) :
  ~ In k (Alist.keys l) -> Alist.remove k ((k, v) :: l) = l.
Proof.
  intros Hn. unfold Alist.remove. simpl. rewrite String.eqb_refl. simpl.
  now apply remove_absent.
Qed.

(** ** The model on sample inputs *)

Example parse_event :
  JSON.parse (Str.dq " {'choices' : [ {'delta':{'content':'hi\u0021','n':-1.50e+3}} ], 'x':[true,false,null]} ")
  = Normal (JObj [("choices",
                   JArr [JObj [("delta",
                                JObj [("content", JStr "hi!");
                                      ("n", JNum (NumLit true 150 1))])]]);
                  ("x", JArr [JBool true; JBool false; JNull])]).
Proof. reflexivity. Qed.

Example parse_repeated_key :
  JSON.parse (Str.dq "{'a':1,'b':2,'a':3}")
  = Normal (JObj [("a", JNum (NumLit false 3 0)); ("b", JNum (NumLit false 2 0))]).
Proof. reflexivity. Qed.

Example parse_rejects :
  map JSON.parse
      [ "{oops"; "[1,]"; "01"; "1."; "tru"; "[DONE]"; EmptyString; "1 2";
        Str.dq "{'a':1,}"; Str.dq "'\x'"; Str.dq "{'a' 1}" ]
  = repeat (Throw SyntaxError) 11.
Proof. reflexivity. Qed.

Example tiny_number_is_falsy :
  JSON.parse "[0, -0.0, 1e-400, 5e-324, 1e400]"
  = Normal (JArr [JNum (NumLit false 0 0); JNum (NumLit true 0 (-1));
                  JNum (NumLit false 1 (-400)); JNum (NumLit false 5 (-324));
                  JNum (NumLit false 1 400)])
  /\ map (fun n => JS.truthy (Some (JNum n)))
         [NumLit false 0 0; NumLit true 0 (-1); NumLit false 1 (-400);
          NumLit false 5 (-324); NumLit false 1 400]
     = [false; false; false; true; true].
Proof. split; reflexivity. Qed.

Example classify_samples :
  map (fun name => fst (getOptimalModel (E := ascii_engine) shipped (JStr name) []))
      [ "gpt-4"; "GPT-4"; "My-DeepSeek-GPT-4"; "claude-opus-4"; "Claude-2";
        "llama-70B"; "mistral"; "toString" ]
  = [ Normal (BackendModel "qwen/qwen3-coder-480b-a35b-instruct");
      Normal (BackendModel "meta/llama-3.1-405b-instruct");
      Normal (BackendModel "deepseek-ai/deepseek-v3.1");
      Normal (BackendModel "meta/llama-3.1-405b-instruct");
      Normal (BackendModel "meta/llama-3.1-70b-instruct");
      Normal (BackendModel "meta/llama-3.1-70b-instruct");
      Normal (BackendModel "deepseek-ai/deepseek-v3.1");
      Normal (PrototypeMember "toString") ].
Proof. reflexivity. Qed.

(** A chunk that ends in the middle of a line leaves that part in the
    buffer; the next chunk completes it. *)
Example chunks_are_reassembled :
  let '(st1, out1) :=
    on_data (E := ascii_engine) merging {| buffer := EmptyString; reasoningStarted := false |}
            (delta_line "reasoning_content" "a" ++ Str.LF ++ Str.LF ++ "data: {") in
  let '(st2, out2) :=
    on_data (E := ascii_engine) merging st1
            (Str.slice 7 (delta_line "content" "c") ++ Str.LF ++ ": ping" ++ Str.LF) in
  (st1, out1, st2, out2)
  = ({| buffer := "data: {"; reasoningStarted := true |},
     [Event (visible_delta (THINK_OPEN ++ "a"))],
     {| buffer := EmptyString; reasoningStarted := false |},
     [Event (visible_delta (THINK_CLOSE ++ "c"))]).
Proof. reflexivity. Qed.

(** ** Request validation and translation *)

(** C6.  A request whose [messages] is missing, is not an array, or is an
    empty array is answered with status 400 and an error of type
    [invalid_request_error]; the handler stops there: the backend is not
    called and the cache is as it was. *)
Theorem invalid_messages_rejected {E : Engine} (cfg : config) (body : json) (cache : Map.t) :
  body <> JNull ->
  JS.get body "messages" = None
  \/ JS.isArray (JS.get body "messages") = false
  \/ JS.get body "messages" = Some (JArr []) ->
  chat_completions cfg body cache
  = (Reply 400
       (ErrorBody (Text "messages field is required and must be a non-empty array")
                  "invalid_request_error" 400),
     cache).
Proof.
  intros Hbody Hmsg. unfold chat_completions.
  assert (Hcheck : negb (JS.truthy (JS.get body "messages"))
                   || negb (JS.isArray (JS.get body "messages"))
                   || (JS.length (JS.get body "messages") =? 0)%nat = true).
  { destruct Hmsg as [-> | [Harr | ->]]; try reflexivity.
    rewrite Harr. now rewrite orb_true_r. }
  rewrite Hcheck. destruct body; congruence.
Qed.

Lemma invalid_messages_rejected_witness :
  JObj [("model", JStr "gpt-4")] <> JNull
  /\ chat_completions (E := ascii_engine) shipped (JObj [("model", JStr "gpt-4")]) []
     = (Reply 400
          (ErrorBody (Text "messages field is required and must be a non-empty array")
                     "invalid_request_error" 400),
        []).
Proof.
  split; [discriminate|].
  apply (invalid_messages_rejected (E := ascii_engine)); [discriminate | left; reflexivity].
Defined.

(** The handler on a body whose [messages] is a non-empty array. *)
Lemma chat_completions_valid {E : Engine} (cfg : config) (fields : list (string * json))
      (cache : Map.t) (m : json) (ms : list json) :
  Alist.find "messages" fields = Some (JArr (m :: ms)) ->
  chat_completions cfg (JObj fields) cache
  = match getOptimalModel cfg (JS.or_else (Alist.find "model" fields) (JStr "gpt-4o")) cache with
    | (Throw _, cache') =>
        (Reply 500 (ErrorBody EngineText "invalid_request_error" 500), cache')
    | (Normal nimModel, cache') =>
        (Post {| model := nimModel;
                 messages := Some (JArr (m :: ms));
                 temperature := JS.or_else (Alist.find "temperature" fields) literal_0_6;
                 max_tokens := JS.or_else (Alist.find "max_tokens" fields) literal_2048;
                 stream := if FORCE_STREAMING cfg then Some (JBool true)
                           else Alist.find "stream" fields;
                 extra_body :=
                   if ENABLE_THINKING_MODE cfg
                   then Some (JObj [("chat_template_kwargs",
                                     JObj [("thinking", JBool true)])])
                   else None |},
         cache')
    end.
Proof.
  intros Hm. unfold chat_completions. simpl. rewrite Hm. reflexivity.
Qed.

Lemma getOptimalModel_gpt_4o {E : Engine} (cfg : config) (cache : Map.t) :
  getOptimalModel cfg (JStr "gpt-4o") cache
  = (Normal (BackendModel "deepseek-ai/deepseek-v3.1"), cache).
Proof. reflexivity. Qed.

(** C10.  A request without a [model] field is handled as the same
    request with the model [gpt-4o]: it is posted with the backend model
    [deepseek-ai/deepseek-v3.1], whatever the cache holds, and the cache
    is left as it was. *)
Theorem omitted_model_defaults_to_gpt_4o {E : Engine} (cfg : config)
        (fields : list (string * json)) (cache : Map.t) (m : json) (ms : list json) :
  Alist.find "model" fields = None ->
  Alist.find "messages" fields = Some (JArr (m :: ms)) ->
  chat_completions cfg (JObj fields) cache
  = chat_completions cfg (JS.set "model" (JStr "gpt-4o") (JObj fields)) cache
  /\ getOptimalModel cfg (JS.or_else (Alist.find "model" fields) (JStr "gpt-4o")) cache
     = (Normal (BackendModel "deepseek-ai/deepseek-v3.1"), cache)
  /\ exists request,
       chat_completions cfg (JObj fields) cache = (Post request, cache)
       /\ model request = BackendModel "deepseek-ai/deepseek-v3.1".
Proof.
  intros Hmodel Hmsg.
  assert (Hres : getOptimalModel cfg (JS.or_else (Alist.find "model" fields) (JStr "gpt-4o")) cache
                 = (Normal (BackendModel "deepseek-ai/deepseek-v3.1"), cache)).
  { rewrite Hmodel. apply getOptimalModel_gpt_4o. }
  split; [|split; [exact Hres|]].
  - simpl JS.set.
    rewrite (chat_completions_valid cfg fields cache m ms Hmsg).
    rewrite (chat_completions_valid cfg (Alist.set "model" (JStr "gpt-4o") fields) cache m ms).
    + rewrite find_set_same.
      rewrite !(find_set_other "model") by discriminate.
      rewrite Hres. reflexivity.
    + rewrite find_set_other by discriminate. exact Hmsg.
  - rewrite (chat_completions_valid cfg fields cache m ms Hmsg), Hres.
    eexists. split; reflexivity.
Qed.

Lemma omitted_model_defaults_to_gpt_4o_witness :
  Alist.find "model" [("messages", one_message)] = None
  /\ exists request,
       chat_completions (E := ascii_engine) shipped (JObj [("messages", one_message)])
                        [("my-model", "deepseek-ai/deepseek-v3.1")]
       = (Post request, [("my-model", "deepseek-ai/deepseek-v3.1")])
       /\ model request = BackendModel "deepseek-ai/deepseek-v3.1".
Proof.
  split; [reflexivity|].
  apply (omitted_model_defaults_to_gpt_4o (E := ascii_engine) shipped
           [("messages", one_message)] [("my-model", "deepseek-ai/deepseek-v3.1")]
           (JObj [("role", JStr "user"); ("content", JStr "hi")]) []);
    reflexivity.
Defined.

(** C4, at a request with [temperature: 0]: the backend request carries
    the default 0.6, not the caller's 0 (and likewise 2048 for a
    [max_tokens] of 0); [stream] is [true]. *)
Theorem temperature_zero_is_replaced {E : Engine} (cache : Map.t) :
  JSON.parse (Str.dq "{'messages':[{'role':'user','content':'hi'}],'temperature':0}")
  = Normal body_temperature_zero
  /\ chat_completions shipped body_temperature_zero cache
     = (Post {| model := BackendModel "deepseek-ai/deepseek-v3.1";
                messages := Some one_message;
                temperature := literal_0_6;
                max_tokens := literal_2048;
                stream := Some (JBool true);
                extra_body := None |},
        cache).
Proof. split; reflexivity. Qed.

(** A caller value that is truthy is passed on; the defaults replace a
    value that is absent or falsy ([0], [null], [false], the empty
    string); [stream] is [true] whenever streaming is forced. *)
Lemma translated_fields {E : Engine} (cfg : config) (fields : list (string * json))
      (cache : Map.t) (m : json) (ms : list json) (request : nimRequest) (cache' : Map.t) :
  Alist.find "messages" fields = Some (JArr (m :: ms)) ->
  chat_completions cfg (JObj fields) cache = (Post request, cache') ->
  (forall t, Alist.find "temperature" fields = Some t -> JS.truthy (Some t) = true ->
             temperature request = t)
  /\ (JS.truthy (Alist.find "temperature" fields) = false -> temperature request = literal_0_6)
  /\ (forall n, Alist.find "max_tokens" fields = Some n -> JS.truthy (Some n) = true ->
                max_tokens request = n)
  /\ (JS.truthy (Alist.find "max_tokens" fields) = false -> max_tokens request = literal_2048)
  /\ (FORCE_STREAMING cfg = true -> stream request = Some (JBool true)).
Proof.
  intros Hmsg Hrun. rewrite (chat_completions_valid cfg fields cache m ms Hmsg) in Hrun.
  destruct (getOptimalModel cfg _ cache) as [[nimModel|e] c]; [|discriminate].
  injection Hrun as <- _. cbn [temperature max_tokens stream].
  repeat split.
  - intros t -> Ht. unfold JS.or_else. now rewrite Ht.
  - unfold JS.or_else. destruct (Alist.find "temperature" fields); [intros ->|]; reflexivity.
  - intros n -> Hn. unfold JS.or_else. now rewrite Hn.
  - unfold JS.or_else. destruct (Alist.find "max_tokens" fields); [intros ->|]; reflexivity.
  - now intros ->.
Qed.

(** ** Model resolution *)

(** C7, at the name [constructor]: it is not a key of the static table,
    and yet the lookup answers with the member every object inherits,
    so the heuristics are not consulted, nothing is cached, and the
    backend request gets that member as its model. *)
Theorem inherited_name_is_not_classified {E : Engine} (cfg : config) (cache : Map.t) :
  ~ In "constructor" (Alist.keys MODEL_MAPPING)
  /\ getOptimalModel cfg (JStr "constructor") cache
     = (Normal (PrototypeMember "constructor"), cache)
  /\ exists request,
       chat_completions cfg body_model_constructor cache = (Post request, cache)
       /\ model request = PrototypeMember "constructor".
Proof.
  split; [|split].
  - simpl. intros Hin. repeat (destruct Hin as [Heq|Hin]; [discriminate Heq|]). exact Hin.
  - reflexivity.
  - eexists. split; reflexivity.
Qed.

(** The call on a name that the static lookup and the cache both miss. *)
Lemma getOptimalModel_unseen {E : Engine} (cfg : config) (name : string) (cache : Map.t) :
  MODEL_MAPPING_get name = None ->
  Map.get name cache = None ->
  getOptimalModel cfg (JStr name) cache
  = (Normal (BackendModel (fallback_for (toLowerCase name))),
     Map.set name (fallback_for (toLowerCase name))
             (if (MAX_CACHE_SIZE cfg <=? Map.size cache)%nat
              then Map.delete (Map.first_key cache) cache
              else cache)).
Proof.
  intros Hstatic Hcache. unfold getOptimalModel. simpl JS.toString. cbv iota beta.
  rewrite Hstatic, Hcache. reflexivity.
Qed.

(** The call on a cached name. *)
Lemma getOptimalModel_cached {E : Engine} (cfg : config) (name cached : string) (cache : Map.t) :
  MODEL_MAPPING_get name = None ->
  Map.get name cache = Some cached ->
  getOptimalModel cfg (JStr name) cache = (Normal (BackendModel cached), cache).
Proof.
  intros Hstatic Hcache. unfold getOptimalModel. simpl JS.toString. cbv iota beta.
  rewrite Hstatic, Hcache. reflexivity.
Qed.

(** The four buckets, in their order of precedence. *)
Lemma fallback_for_buckets (modelLower : string) :
  (Str.includes "deepseek" modelLower = true ->
   fallback_for modelLower = "deepseek-ai/deepseek-v3.1")
  /\ (Str.includes "deepseek" modelLower = false ->
      Str.includes "gpt-4" modelLower = true \/ Str.includes "claude-opus" modelLower = true
      \/ Str.includes "405b" modelLower = true ->
      fallback_for modelLower = "meta/llama-3.1-405b-instruct")
  /\ (Str.includes "deepseek" modelLower = false ->
      Str.includes "gpt-4" modelLower = false -> Str.includes "claude-opus" modelLower = false ->
      Str.includes "405b" modelLower = false ->
      Str.includes "claude" modelLower = true \/ Str.includes "gemini" modelLower = true
      \/ Str.includes "70b" modelLower = true ->
      fallback_for modelLower = "meta/llama-3.1-70b-instruct")
  /\ (Str.includes "deepseek" modelLower = false ->
      Str.includes "gpt-4" modelLower = false -> Str.includes "claude-opus" modelLower = false ->
      Str.includes "405b" modelLower = false ->
      Str.includes "claude" modelLower = false -> Str.includes "gemini" modelLower = false ->
      Str.includes "70b" modelLower = false ->
      fallback_for modelLower = "deepseek-ai/deepseek-v3.1").
Proof.
  unfold fallback_for. repeat split.
  - now intros ->.
  - intros -> [-> | [-> | ->]]; rewrite ?orb_true_r; reflexivity.
  - intros -> -> -> -> [-> | [-> | ->]]; rewrite ?orb_true_r; reflexivity.
  - now intros -> -> -> -> -> -> ->.
Qed.

(** For a name that the lookup in the static table misses, inherited
    members included, the fallback is a function of the lower-cased name,
    and an immediately repeated call answers from the cache, which it
    leaves as it is. *)
Lemma unseen_name_classified_then_cached {E : Engine} (cfg : config) (name : string)
      (cache : Map.t) :
  MODEL_MAPPING_get name = None ->
  Map.get name cache = None ->
  exists cache',
    getOptimalModel cfg (JStr name) cache
    = (Normal (BackendModel (fallback_for (toLowerCase name))), cache')
    /\ Map.get name cache' = Some (fallback_for (toLowerCase name))
    /\ getOptimalModel cfg (JStr name) cache'
       = (Normal (BackendModel (fallback_for (toLowerCase name))), cache').
Proof.
  intros Hstatic Hcache. eexists. split; [now apply getOptimalModel_unseen|].
  assert (Hget : forall m, Map.get name (Map.set name (fallback_for (toLowerCase name)) m)
                           = Some (fallback_for (toLowerCase name))).
  { intros m. apply find_set_same. }
  split; [apply Hget|]. apply getOptimalModel_cached; [exact Hstatic | apply Hget].
Qed.

(** ** The fallback cache *)

Lemma keys_app {A} (l l' : list (string * A)) :
  Alist.keys (l ++ l') = Alist.keys l ++ Alist.keys l'.
Proof. apply map_app. Qed.

Lemma NoDup_snoc (l : list string) (k : string) :
  NoDup l -> ~ In k l -> NoDup (l ++ [k]).
Proof.
  induction 1 as [|x l Hx Hl IH]; simpl; intros Hk.
  - constructor; [tauto | constructor].
  - constructor.
    + rewrite in_app_iff. simpl. intros [Hin | [Heq | []]]; [tauto | subst; tauto].
    + apply IH. tauto.
Qed.

(** A call either leaves the cache alone or inserts an unseen name. *)
Lemma getOptimalModel_cache {E : Engine} (cfg : config) (requestedModel : json) (cache : Map.t) :
  snd (getOptimalModel cfg requestedModel cache) = cache
  \/ exists name,
       requestedModel = JStr name
       /\ MODEL_MAPPING_get name = None
       /\ Map.get name cache = None
       /\ snd (getOptimalModel cfg requestedModel cache)
          = Map.set name (fallback_for (toLowerCase name))
                    (if (MAX_CACHE_SIZE cfg <=? Map.size cache)%nat
                     then Map.delete (Map.first_key cache) cache
                     else cache).
Proof.
  unfold getOptimalModel.
  destruct (JS.toString requestedModel) as [key|e] eqn:Hkey; [|now left].
  cbv zeta.
  assert (Hmiss :
    forall r : completion model_ref * Map.t,
      (r = match requestedModel with
           | JStr name =>
               match Map.get name cache with
               | Some cached => (Normal (BackendModel cached), cache)
               | None =>
                   (Normal (BackendModel (fallback_for (toLowerCase name))),
                    Map.set name (fallback_for (toLowerCase name))
                            (if (MAX_CACHE_SIZE cfg <=? Map.size cache)%nat
                             then Map.delete (Map.first_key cache) cache
                             else cache))
               end
           | _ => (Throw TypeError, cache)
           end) ->
      MODEL_MAPPING_get key = None ->
      snd r = cache
      \/ exists name,
           requestedModel = JStr name /\ MODEL_MAPPING_get name = None
           /\ Map.get name cache = None
           /\ snd r = Map.set name (fallback_for (toLowerCase name))
                              (if (MAX_CACHE_SIZE cfg <=? Map.size cache)%nat
                               then Map.delete (Map.first_key cache) cache
                               else cache)).
  { intros r -> Hstatic.
    destruct requestedModel as [| | |name| |]; try (now left).
    simpl in Hkey. injection Hkey as <-.
    destruct (Map.get name cache) eqn:Hc; [now left|].
    right. exists name. auto. }
  destruct (MODEL_MAPPING_get key) as [hit|] eqn:Hstatic.
  - destruct (model_ref_truthy hit) eqn:Ht; [now left|].
    exfalso. unfold MODEL_MAPPING_get in Hstatic.
    destruct (Alist.find key MODEL_MAPPING) as [v|] eqn:Hf.
    + injection Hstatic as <-. simpl in Ht.
      simpl in Hf.
      repeat match type of Hf with
             | (if ?c then _ else _) = _ => destruct c; [injection Hf as <-; discriminate Ht|]
             end.
      discriminate Hf.
    + destruct (existsb _ _); [injection Hstatic as <-; discriminate Ht | discriminate].
  - now apply Hmiss.
Qed.

Lemma getOptimalModel_keeps_cache_ok {E : Engine} (cfg : config) (requestedModel : json)
      (cache : Map.t) :
  1 <= MAX_CACHE_SIZE cfg ->
  cache_ok cfg cache ->
  cache_ok cfg (snd (getOptimalModel cfg requestedModel cache)).
Proof.
  intros Hbound [Hnd Hsize].
  destruct (getOptimalModel_cache cfg requestedModel cache)
    as [-> | (name & _ & _ & Hfresh & ->)]; [now split|].
  unfold Map.get in Hfresh. unfold Map.set, Map.size in *.
  destruct (Nat.leb_spec (MAX_CACHE_SIZE cfg) (List.length cache)) as [Hfull|Hroom].
  - destruct cache as [|[k v] rest]; [simpl in Hfull; lia|].
    change (Map.delete (Map.first_key ((k, v) :: rest)) ((k, v) :: rest))
      with (Alist.remove k ((k, v) :: rest)).
    inversion Hnd as [|? ? Hk Hrest]; subst.
    rewrite remove_head by exact Hk.
    assert (Hfresh' : Alist.find name rest = None).
    { simpl in Hfresh. destruct (String.eqb name k); [discriminate | exact Hfresh]. }
    rewrite set_fresh by exact Hfresh'. split.
    + rewrite keys_app. apply NoDup_snoc; [exact Hrest|].
      now apply find_none_not_in.
    + unfold Map.size. rewrite length_app. simpl in *. lia.
  - rewrite set_fresh by exact Hfresh. split.
    + rewrite keys_app. apply NoDup_snoc; [exact Hnd|]. now apply find_none_not_in.
    + unfold Map.size. rewrite length_app. simpl. lia.
Qed.

Lemma resolve_all_keeps_cache_ok {E : Engine} (cfg : config) (requested : list json)
      (cache : Map.t) :
  1 <= MAX_CACHE_SIZE cfg ->
  cache_ok cfg cache ->
  cache_ok cfg (resolve_all cfg requested cache).
Proof.
  intros Hbound. revert cache. unfold resolve_all.
  induction requested as [|r rs IH]; simpl; intros cache Hok; [exact Hok|].
  apply IH. now apply getOptimalModel_keeps_cache_ok.
Qed.

(** C3.  Whatever models are requested one after the other, starting
    with an empty cache, the cache never holds more entries than the
    bound.  When the cache is full and a name that neither the static table
    nor the cache knows is resolved, the entry inserted first is dropped,
    the others keep their order and values, and the new entry goes last;
    below the bound nothing is dropped.  With a bound of 2, resolving three
    unseen names leaves the second and the third. *)
Theorem cache_bounded_fifo {E : Engine} (cfg : config) (requested : list json) :
  1 <= MAX_CACHE_SIZE cfg ->
  let cache := resolve_all cfg requested [] in
  Map.size cache <= MAX_CACHE_SIZE cfg
  /\ (forall name,
        MODEL_MAPPING_get name = None -> Map.get name cache = None ->
        Map.size cache = MAX_CACHE_SIZE cfg ->
        exists oldest rest,
          cache = oldest :: rest
          /\ snd (getOptimalModel cfg (JStr name) cache)
             = rest ++ [(name, fallback_for (toLowerCase name))])
  /\ (forall name,
        MODEL_MAPPING_get name = None -> Map.get name cache = None ->
        Map.size cache < MAX_CACHE_SIZE cfg ->
        snd (getOptimalModel cfg (JStr name) cache)
        = cache ++ [(name, fallback_for (toLowerCase name))])
  /\ resolve_all (Config (SHOW_REASONING cfg) (ENABLE_THINKING_MODE cfg) 2 (FORCE_STREAMING cfg))
                 [JStr "model-a"; JStr "model-b"; JStr "model-c"] []
     = [("model-b", fallback_for (toLowerCase "model-b"));
        ("model-c", fallback_for (toLowerCase "model-c"))].
Proof.
  intros Hbound cache.
  assert (Hok : cache_ok cfg cache).
  { apply resolve_all_keeps_cache_ok; [exact Hbound|]. split; [constructor | simpl; lia]. }
  destruct Hok as [Hnd Hsize].
  split; [exact Hsize|]. split; [|split].
  - intros name Hstatic Hfresh Hfull.
    rewrite (getOptimalModel_unseen cfg name cache Hstatic Hfresh).
    cbn [snd]. rewrite Hfull, Nat.leb_refl.
    destruct cache as [|[k v] rest] eqn:Hc.
    + simpl in Hfull. lia.
    + exists (k, v), rest. split; [reflexivity|].
      change (Map.delete (Map.first_key ((k, v) :: rest)) ((k, v) :: rest))
        with (Alist.remove k ((k, v) :: rest)).
      inversion Hnd as [|? ? Hk Hrest]; subst.
      rewrite remove_head by exact Hk.
      unfold Map.set. apply set_fresh.
      unfold Map.get in Hfresh. simpl in Hfresh.
      destruct (String.eqb name k); [discriminate | exact Hfresh].
  - intros name Hstatic Hfresh Hroom.
    rewrite (getOptimalModel_unseen cfg name cache Hstatic Hfresh).
    cbn [snd].
    destruct (Nat.leb_spec (MAX_CACHE_SIZE cfg) (Map.size cache)); [lia|].
    unfold Map.set. now apply set_fresh.
  - reflexivity.
Qed.

Lemma cache_bounded_fifo_witness :
  1 <= MAX_CACHE_SIZE shipped
  /\ Map.size (resolve_all (E := ascii_engine) shipped
                           [JStr "model-a"; JStr "gpt-4"; JStr "model-b"; JStr "model-a"] [])
     <= MAX_CACHE_SIZE shipped.
Proof.
  split; [simpl; lia|].
  apply (cache_bounded_fifo (E := ascii_engine) shipped
           [JStr "model-a"; JStr "gpt-4"; JStr "model-b"; JStr "model-a"]).
  simpl; lia.
Defined.

(** ** The stream: lines that are forwarded as they are *)

Lemma handle_lines_app {E : Engine} (cfg : config) (started : bool) (l1 l2 : list string) :
  handle_lines cfg started (l1 ++ l2)
  = let '(s1, o1) := handle_lines cfg started l1 in
    let '(s2, o2) := handle_lines cfg s1 l2 in
    (s2, o1 ++ o2).
Proof.
  revert started. induction l1 as [|l l1 IH]; intros started; simpl.
  - now destruct (handle_lines cfg started l2).
  - destruct (handle_line cfg started l) as [s o].
    rewrite IH. destruct (handle_lines cfg s l1) as [s1 o1].
    destruct (handle_lines cfg s1 l2) as [s2 o2].
    now rewrite app_assoc.
Qed.

(** C5.  A data line whose payload [JSON.parse] rejects is written back
    unchanged, followed by the line feed that ended it (two when the line
    contains the sentinel text); the flag [reasoningStarted] is as before,
    so the lines before it and after it in the same chunk are handled as
    if it were not there. *)
Theorem malformed_line_forwarded {E : Engine} (cfg : config) (started : bool) (line : string)
        (e : exn) (before after : list string) :
  Str.startsWith "data: " line = true ->
  JSON.parse (Str.slice 6 line) = Throw e ->
  let terminator := if Str.includes "[DONE]" line then (Str.LF ++ Str.LF)%string else Str.LF in
  handle_line cfg started line = (started, [Raw (line ++ terminator)])
  /\ handle_lines cfg started (before ++ line :: after)
     = (let '(s1, o1) := handle_lines cfg started before in
        let '(s2, o2) := handle_lines cfg s1 after in
        (s2, o1 ++ Raw (line ++ terminator) :: o2)).
Proof.
  intros Hdata Hparse terminator.
  assert (Hline : forall s, handle_line cfg s line = (s, [Raw (line ++ terminator)])).
  { intros s. unfold handle_line, terminator. rewrite Hdata, Hparse.
    now destruct (Str.includes "[DONE]" line). }
  split; [apply Hline|].
  rewrite handle_lines_app. destruct (handle_lines cfg started before) as [s1 o1].
  simpl. rewrite Hline. destruct (handle_lines cfg s1 after) as [s2 o2]. reflexivity.
Qed.

Lemma malformed_line_forwarded_witness :
  Str.startsWith "data: " "data: {oops" = true
  /\ JSON.parse (Str.slice 6 "data: {oops") = Throw SyntaxError
  /\ handle_line (E := ascii_engine) merging true "data: {oops"
     = (true, [Raw ("data: {oops" ++ Str.LF)]).
Proof.
  split; [reflexivity|]. split; [reflexivity|].
  apply (malformed_line_forwarded (E := ascii_engine) merging true "data: {oops"
           SyntaxError [] []); reflexivity.
Defined.

(** C9.  A data line that contains the text [[DONE]] anywhere is written
    back unchanged with two line feeds and is not parsed, in either mode
    and whatever the flag.  The line [done_in_content_line] is such a one:
    its payload is a well-formed event whose delta has a
    [reasoning_content], and it reaches the caller as it came. *)
Theorem done_text_bypasses_transcoding {E : Engine} :
  (forall (cfg : config) (started : bool) (line : string),
      Str.startsWith "data: " line = true ->
      Str.includes "[DONE]" line = true ->
      handle_line cfg started line = (started, [Raw (line ++ Str.LF ++ Str.LF)]))
  /\ JSON.parse (Str.slice 6 done_in_content_line) = Normal done_in_content_event
  /\ carries_reasoning done_in_content_event = true
  /\ (forall (cfg : config) (started : bool),
        handle_line cfg started done_in_content_line
        = (started, [Raw (done_in_content_line ++ Str.LF ++ Str.LF)])).
Proof.
  assert (Hgen : forall (cfg : config) (started : bool) (line : string),
             Str.startsWith "data: " line = true ->
             Str.includes "[DONE]" line = true ->
             handle_line cfg started line = (started, [Raw (line ++ Str.LF ++ Str.LF)])).
  { intros cfg started line Hdata Hdone. unfold handle_line. now rewrite Hdata, Hdone. }
  split; [exact Hgen|]. split; [reflexivity|]. split; [reflexivity|].
  intros cfg started. apply Hgen; reflexivity.
Qed.

Lemma done_text_bypasses_transcoding_witness :
  Str.startsWith "data: " "data: [DONE]" = true
  /\ Str.includes "[DONE]" "data: [DONE]" = true
  /\ handle_line (E := ascii_engine) shipped false "data: [DONE]"
     = (false, [Raw ("data: [DONE]" ++ Str.LF ++ Str.LF)]).
Proof.
  split; [reflexivity|]. split; [reflexivity|].
  apply (proj1 (done_text_bypasses_transcoding (E := ascii_engine))); reflexivity.
Defined.

(** ** The stream: the reasoning field of the written event *)

Lemma first_delta_on_first_delta (f : json -> json) (data : json) :
  first_delta (on_first_delta f data) = option_map f (first_delta data).
Proof.
  unfold first_delta, on_first_delta.
  destruct data as [| | | | |fields]; try reflexivity.
  simpl. rewrite find_update_same.
  destruct (Alist.find "choices" fields) as [ch|]; [|reflexivity].
  destruct ch as [| | |s|items|fs]; try reflexivity.
  - destruct s; reflexivity.
  - destruct items as [|x xs]; [reflexivity|].
    destruct x; try reflexivity. simpl. apply find_update_same.
  - simpl. rewrite find_update_same.
    destruct (Alist.find "0" fs) as [x|]; [|reflexivity].
    destruct x; try reflexivity. simpl. apply find_update_same.
Qed.

Lemma get_opt_delete (k k' : string) (c d : json) :
  JS.get_opt (Some (JS.delete k (JS.set k' c d))) k = None.
Proof.
  destruct d; try reflexivity. simpl. apply find_remove_same.
Qed.

Lemma falsy_has_no_property (v : jsval) (k : string) :
  JS.truthy v = false -> JS.get_opt v k = None.
Proof.
  destruct v as [[]|]; simpl; intros Hv; try reflexivity; discriminate.
Qed.

Lemma nonempty_app_l (a b : string) :
  Str.nonempty a = true -> Str.nonempty (a ++ b) = true.
Proof. destruct a; [discriminate | reflexivity]. Qed.

Lemma nonempty_app_r (a b : string) :
  Str.nonempty b = true -> Str.nonempty (a ++ b) = true.
Proof. destruct a; [auto | reflexivity]. Qed.

(** Text appended to any value is text that ends with it. *)
Lemma add_text_r {E : Engine} (v : json) (s : string) :
  (exists a, JS.add v (JStr s) = Normal (JStr (a ++ s)))
  \/ (exists e, JS.add v (JStr s) = Throw e).
Proof.
  unfold JS.add. rewrite orb_true_r. unfold bind.
  destruct (JS.toString v) as [a|e]; [left; exists a | right; exists e]; reflexivity.
Qed.

(** After the reasoning step the flag is set; this is the content step
    from there. *)
Lemma combine_content_step {E : Engine} (content : jsval) (combined0 combined : json)
      (started' : bool) :
  JS.truthy (Some combined0) = true ->
  match content with
  | Some c =>
      if JS.truthy content && true
      then
        match (s <- JS.concat_right THINK_CLOSE c ;; JS.add combined0 (JStr s)) with
        | Normal combined1 => (false, Normal combined1)
        | Throw e => (true, Throw e)
        end
      else if JS.truthy content then (true, JS.add combined0 c)
      else (true, Normal combined0)
  | None => (true, Normal combined0)
  end = (started', Normal combined) ->
  JS.truthy (Some combined) = true.
Proof.
  intros H0. destruct content as [c|].
  - rewrite andb_true_r. destruct (JS.truthy (Some c)).
    + unfold JS.concat_right, bind. destruct (JS.toString c) as [tc|]; [|discriminate].
      destruct (add_text_r combined0 (THINK_CLOSE ++ tc)) as [[a ->] | [e ->]]; [|discriminate].
      intros Heq. injection Heq as _ <-. simpl. apply nonempty_app_r. reflexivity.
    + intros Heq. injection Heq as _ <-. exact H0.
  - intros Heq. injection Heq as _ <-. exact H0.
Qed.

(** A reasoning fragment that is truthy makes the combined content
    truthy. *)
Lemma combine_truthy {E : Engine} (started : bool) (reasoning content : jsval)
      (started' : bool) (combined : json) :
  JS.truthy reasoning = true ->
  combine started reasoning content = (started', Normal combined) ->
  JS.truthy (Some combined) = true.
Proof.
  intros Ht. unfold combine.
  destruct reasoning as [r|]; [|discriminate]. rewrite Ht.
  destruct started; simpl negb; rewrite ?andb_true_r, ?andb_false_r.
  - apply combine_content_step. exact Ht.
  - unfold JS.concat_right at 1. unfold bind at 1.
    destruct (JS.toString r) as [tr|]; [|discriminate].
    apply combine_content_step. reflexivity.
Qed.

(** The body of [transcode] on an event that is not [null]. *)
Lemma transcode_body {E : Engine} (cfg : config) (started : bool) (data : json) :
  data <> JNull ->
  transcode cfg started data
  = (if JS.truthy (first_delta data)
     then
       if SHOW_REASONING cfg
       then
         match combine started (JS.get_opt (first_delta data) "reasoning_content")
                       (JS.get_opt (first_delta data) "content") with
         | (s, Throw e) => (s, Throw e)
         | (s, Normal combinedContent) =>
             if JS.truthy (Some combinedContent)
             then (s, Normal (on_first_delta
                                (fun d => JS.delete "reasoning_content"
                                            (JS.set "content" combinedContent d)) data))
             else (s, Normal data)
         end
       else
         (started,
          Normal (on_first_delta
                    (fun d => JS.delete "reasoning_content"
                                (JS.set "content"
                                        (JS.or_else (JS.get_opt (first_delta data) "content")
                                                    (JStr EmptyString)) d)) data))
     else (started, Normal data)).
Proof. intros Hnn. destruct data; try reflexivity. congruence. Qed.

Lemma transcode_normal_not_null {E : Engine} (cfg : config) (started started' : bool)
      (data data' : json) :
  transcode cfg started data = (started', Normal data') -> data <> JNull.
Proof. intros Hrun ->. discriminate Hrun. Qed.

Lemma transcode_removes_reasoning {E : Engine} (cfg : config) (started started' : bool)
      (data data' : json) :
  transcode cfg started data = (started', Normal data') ->
  SHOW_REASONING cfg = false
  \/ JS.truthy (JS.get_opt (first_delta data) "reasoning_content") = true ->
  JS.get_opt (first_delta data') "reasoning_content" = None.
Proof.
  intros Hrun Hcase.
  rewrite (transcode_body cfg started data (transcode_normal_not_null _ _ _ _ _ Hrun)) in Hrun.
  destruct (JS.truthy (first_delta data)) eqn:Hdelta.
  - destruct (SHOW_REASONING cfg) eqn:Hshow.
    + destruct Hcase as [Hcase|Hcase]; [discriminate|].
      destruct (combine started _ _) as [s [combined|e]] eqn:Hc; [|discriminate].
      rewrite (combine_truthy _ _ _ _ _ Hcase Hc) in Hrun.
      injection Hrun as _ <-. rewrite first_delta_on_first_delta.
      destruct (first_delta data) as [d|]; [|reflexivity].
      apply get_opt_delete.
    + injection Hrun as _ <-. rewrite first_delta_on_first_delta.
      destruct (first_delta data) as [d|]; [|reflexivity].
      apply get_opt_delete.
  - injection Hrun as _ <-. now apply falsy_has_no_property.
Qed.

(** In pass-through mode the visible content is the delta's own, or
    empty. *)
Lemma transcode_passes_content {E : Engine} (cfg : config) (started started' : bool)
      (data data' : json) (fields : list (string * json)) :
  transcode cfg started data = (started', Normal data') ->
  SHOW_REASONING cfg = false ->
  first_delta data = Some (JObj fields) ->
  JS.get_opt (first_delta data') "content"
  = Some (JS.or_else (Alist.find "content" fields) (JStr EmptyString)).
Proof.
  intros Hrun Hshow Hdelta.
  rewrite (transcode_body cfg started data (transcode_normal_not_null _ _ _ _ _ Hrun)) in Hrun.
  rewrite Hdelta, Hshow in Hrun. cbn [JS.truthy JS.get_opt JS.get] in Hrun.
  injection Hrun as _ <-. rewrite first_delta_on_first_delta, Hdelta.
  cbn [option_map JS.set JS.delete JS.get_opt JS.get].
  rewrite find_remove_other by discriminate. apply find_set_same.
Qed.

(** In merge mode the visible content is the combined one. *)
Lemma transcode_merges_content {E : Engine} (cfg : config) (started started' : bool)
      (data data' : json) (fields : list (string * json)) :
  transcode cfg started data = (started', Normal data') ->
  SHOW_REASONING cfg = true ->
  first_delta data = Some (JObj fields) ->
  JS.truthy (Alist.find "reasoning_content" fields) = true ->
  exists combined,
    combine started (Alist.find "reasoning_content" fields) (Alist.find "content" fields)
    = (started', Normal combined)
    /\ JS.get_opt (first_delta data') "content" = Some combined.
Proof.
  intros Hrun Hshow Hdelta Hr.
  rewrite (transcode_body cfg started data (transcode_normal_not_null _ _ _ _ _ Hrun)) in Hrun.
  rewrite Hdelta, Hshow in Hrun.
  change (JS.truthy (Some (JObj fields))) with true in Hrun.
  cbn [JS.get_opt JS.get] in Hrun.
  destruct (combine started _ _) as [s [combined|e]] eqn:Hc; [|discriminate].
  rewrite (combine_truthy _ _ _ _ _ Hr Hc) in Hrun.
  injection Hrun as <- <-. exists combined. split; [reflexivity|].
  rewrite first_delta_on_first_delta, Hdelta.
  cbn [option_map JS.set JS.delete JS.get_opt JS.get].
  rewrite find_remove_other by discriminate. apply find_set_same.
Qed.

Lemma handle_line_event {E : Engine} (cfg : config) (started started' : bool)
      (line : string) (data data' : json) :
  JSON.parse (Str.slice 6 line) = Normal data ->
  handle_line cfg started line = (started', [Event data']) ->
  transcode cfg started data = (started', Normal data').
Proof.
  intros Hparse Hrun. unfold handle_line in Hrun. rewrite Hparse in Hrun.
  destruct (Str.startsWith "data: " line); [|discriminate].
  destruct (Str.includes "[DONE]" line); [discriminate|].
  destruct (transcode cfg started data) as [s [d|e]]; [|discriminate].
  now injection Hrun as <- <-.
Qed.

(** C2, amended.  For a data line whose payload parses, the event written
    for it has no [reasoning_content] in the delta of its first choice: in
    pass-through mode always, the visible content being the delta's own
    or empty; in merge mode whenever the delta came with a reasoning
    fragment that is truthy, the visible content being the combined
    one. *)
Theorem first_choice_reasoning_never_raw {E : Engine} (cfg : config) (started started' : bool)
        (line : string) (data data' : json) :
  JSON.parse (Str.slice 6 line) = Normal data ->
  handle_line cfg started line = (started', [Event data']) ->
  (SHOW_REASONING cfg = false
   \/ JS.truthy (JS.get_opt (first_delta data) "reasoning_content") = true ->
   JS.get_opt (first_delta data') "reasoning_content" = None)
  /\ (SHOW_REASONING cfg = false ->
      forall fields, first_delta data = Some (JObj fields) ->
      JS.get_opt (first_delta data') "content"
      = Some (JS.or_else (Alist.find "content" fields) (JStr EmptyString)))
  /\ (SHOW_REASONING cfg = true ->
      forall fields, first_delta data = Some (JObj fields) ->
      JS.truthy (Alist.find "reasoning_content" fields) = true ->
      exists combined,
        combine started (Alist.find "reasoning_content" fields) (Alist.find "content" fields)
        = (started', Normal combined)
        /\ JS.get_opt (first_delta data') "content" = Some combined).
Proof.
  intros Hparse Hrun.
  pose proof (handle_line_event cfg started started' line data data' Hparse Hrun) as Ht.
  split; [|split].
  - now apply (transcode_removes_reasoning cfg started started' data data').
  - intros Hshow fields Hdelta.
    now apply (transcode_passes_content cfg started started' data data' fields).
  - intros Hshow fields Hdelta Hr.
    now apply (transcode_merges_content cfg started started' data data' fields).
Qed.

Lemma first_choice_reasoning_never_raw_witness :
  JSON.parse (Str.slice 6 two_choice_line)
  = Normal (JObj [("choices",
                   JArr [JObj [("index", JNum (NumLit false 0 0));
                               ("delta", JObj [("content", JStr "a");
                                               ("reasoning_content", JStr "r0")])];
                         JObj [("index", JNum (NumLit false 1 0));
                               ("delta", JObj [("content", JStr "b");
                                               ("reasoning_content", JStr "r1")])]])])
  /\ handle_line (E := ascii_engine) shipped false two_choice_line
     = (false, [Event (two_choice_written "a")])
  /\ JS.get_opt (first_delta (two_choice_written "a")) "reasoning_content" = None.
Proof.
  split; [reflexivity|]. split; [reflexivity|].
  apply (first_choice_reasoning_never_raw (E := ascii_engine) shipped false false
           two_choice_line
           (JObj [("choices",
                   JArr [JObj [("index", JNum (NumLit false 0 0));
                               ("delta", JObj [("content", JStr "a");
                                               ("reasoning_content", JStr "r0")])];
                         JObj [("index", JNum (NumLit false 1 0));
                               ("delta", JObj [("content", JStr "b");
                                               ("reasoning_content", JStr "r1")])]])])
           (two_choice_written "a"));
    [reflexivity | reflexivity | left; reflexivity].
Defined.


(** Counterexample to C2: an event with two choices is written, in both
    modes, with the [reasoning_content] of its second choice; and in merge
    mode an event whose only choice has neither reasoning nor content to
    show is written as it came, with its [reasoning_content] field. *)
Lemma reasoning_field_reaches_caller :
  handle_line (E := ascii_engine) shipped false two_choice_line
  = (false, [Event (two_choice_written "a")])
  /\ carries_reasoning (two_choice_written "a") = true
  /\ handle_line (E := ascii_engine) merging false two_choice_line
     = (false, [Event (two_choice_written (THINK_OPEN ++ "r0" ++ THINK_CLOSE ++ "a"))])
  /\ carries_reasoning (two_choice_written (THINK_OPEN ++ "r0" ++ THINK_CLOSE ++ "a")) = true
  /\ handle_line (E := ascii_engine) merging false role_only_line
     = (false, [Event role_only_event])
  /\ carries_reasoning role_only_event = true.
Proof. repeat split; reflexivity. Qed.

(** ** The stream: the merge of reasoning into the visible content *)

Lemma transcode_reasoning_delta {E : Engine} (cfg : config) (started : bool) (r : string) :
  SHOW_REASONING cfg = true ->
  Str.nonempty r = true ->
  transcode cfg started (reasoning_delta r)
  = (true, Normal (visible_delta (if started then r else THINK_OPEN ++ r))).
Proof.
  intros Hshow Hr. destruct r as [|a r]; [discriminate|].
  unfold transcode. rewrite Hshow. destruct started; reflexivity.
Qed.

Lemma transcode_visible_delta {E : Engine} (cfg : config) (started : bool) (c : string) :
  SHOW_REASONING cfg = true ->
  Str.nonempty c = true ->
  transcode cfg started (visible_delta c)
  = (false, Normal (visible_delta (if started then THINK_CLOSE ++ c else c))).
Proof.
  intros Hshow Hc. destruct c as [|a c]; [discriminate|].
  unfold transcode. rewrite Hshow. destruct started; reflexivity.
Qed.

Lemma transcode_all_app {E : Engine} (cfg : config) (started : bool) (l1 l2 : list json) :
  transcode_all cfg started (l1 ++ l2)
  = (let '(s1, o1) := transcode_all cfg started l1 in
     let '(s2, o2) := transcode_all cfg s1 l2 in
     (s2, o1 ++ o2)).
Proof.
  revert started. induction l1 as [|d l1 IH]; intros started; simpl.
  - now destruct (transcode_all cfg started l2).
  - destruct (transcode cfg started d) as [s r].
    rewrite IH. destruct (transcode_all cfg s l1) as [s1 o1].
    destruct (transcode_all cfg s1 l2) as [s2 o2]. reflexivity.
Qed.

(** A run of reasoning fragments: the marker goes before the first one
    if reasoning was not open, and reasoning is open afterwards. *)
Lemma reasoning_run {E : Engine} (cfg : config) (started : bool) (r : string) (rs : list string) :
  SHOW_REASONING cfg = true ->
  Forall (fun s => Str.nonempty s = true) (r :: rs) ->
  transcode_all cfg started (map reasoning_delta (r :: rs))
  = (true,
     map (fun s => Some (visible_delta s)) ((if started then r else THINK_OPEN ++ r)%string :: rs)).
Proof.
  intros Hshow. revert started r. induction rs as [|r' rs IH]; intros started r Hall.
  - inversion Hall; subst. cbn [map transcode_all].
    now rewrite transcode_reasoning_delta.
  - inversion Hall; subst.
    change (map reasoning_delta (r :: r' :: rs))
      with (reasoning_delta r :: map reasoning_delta (r' :: rs)).
    cbn [transcode_all]. rewrite transcode_reasoning_delta by assumption.
    rewrite IH by assumption. reflexivity.
Qed.

(** A run of visible fragments: the closing marker goes before the first
    one if reasoning was open, and reasoning is closed afterwards. *)
Lemma visible_run {E : Engine} (cfg : config) (started : bool) (c : string) (cs : list string) :
  SHOW_REASONING cfg = true ->
  Forall (fun s => Str.nonempty s = true) (c :: cs) ->
  transcode_all cfg started (map visible_delta (c :: cs))
  = (false,
     map (fun s => Some (visible_delta s)) ((if started then THINK_CLOSE ++ c else c)%string :: cs)).
Proof.
  intros Hshow. revert started c. induction cs as [|c' cs IH]; intros started c Hall.
  - inversion Hall; subst. cbn [map transcode_all].
    now rewrite transcode_visible_delta.
  - inversion Hall; subst.
    change (map visible_delta (c :: c' :: cs))
      with (visible_delta c :: map visible_delta (c' :: cs)).
    cbn [transcode_all]. rewrite transcode_visible_delta by assumption.
    rewrite IH by assumption. reflexivity.
Qed.

Lemma emitted_visible (l : list string) :
  map emitted_content (map (fun s => Some (visible_delta s)) l) = l.
Proof. induction l as [|s l IH]; simpl; [reflexivity | now rewrite IH]. Qed.

Lemma append_assoc (a b c : string) : ((a ++ b) ++ c = a ++ (b ++ c))%string.
Proof. induction a as [|x a IH]; simpl; [reflexivity | now rewrite IH]. Qed.

Lemma cat_app (l1 l2 : list string) : Str.cat (l1 ++ l2) = (Str.cat l1 ++ Str.cat l2)%string.
Proof.
  induction l1 as [|s l1 IH]; simpl; [reflexivity|].
  rewrite IH. now rewrite append_assoc.
Qed.

Lemma first_delta_not_null (data d : json) : first_delta data = Some d -> data <> JNull.
Proof. intros Hd ->. discriminate Hd. Qed.



Lemma combine_both {E : Engine} (started : bool) (r c : string) :
  Str.nonempty r = true ->
  Str.nonempty c = true ->
  combine started (Some (JStr r)) (Some (JStr c))
  = (false, Normal (JStr ((if started then r else THINK_OPEN ++ r) ++ THINK_CLOSE ++ c))).
Proof.
  intros Hr Hc. unfold combine. cbn [JS.truthy]. rewrite Hr, Hc.
  destruct started; reflexivity.
Qed.

(** A transcoded line in merge mode whose combined content is truthy:
    the event is written with that content and without the reasoning. *)
Lemma handle_line_merges {E : Engine} (cfg : config) (started flag : bool) (line : string)
      (data : json) (fields : list (string * json)) (combined : json) :
  SHOW_REASONING cfg = true ->
  transcoded_line line data fields ->
  combine started (Alist.find "reasoning_content" fields) (Alist.find "content" fields)
  = (flag, Normal combined) ->
  JS.truthy (Some combined) = true ->
  exists data',
    handle_line cfg started line = (flag, [Event data'])
    /\ JS.get_opt (first_delta data') "content" = Some combined
    /\ JS.get_opt (first_delta data') "reasoning_content" = None.
Proof.
  intros Hshow (Hdata & Hdone & Hparse & Hdelta) Hcombine Htruthy.
  unfold handle_line. rewrite Hdata, Hdone, Hparse.
  rewrite (transcode_body cfg started data (first_delta_not_null _ _ Hdelta)).
  rewrite Hdelta, Hshow. change (JS.truthy (Some (JObj fields))) with true.
  cbn [JS.get_opt JS.get]. rewrite Hcombine, Htruthy.
  eexists. split; [reflexivity|].
  rewrite first_delta_on_first_delta, Hdelta.
  cbn [option_map JS.set JS.delete JS.get_opt JS.get]. split.
  - rewrite find_remove_other by discriminate. apply find_set_same.
  - apply find_remove_same.
Qed.










(** ** The non-streaming path *)

(** C8, amended.  With merge mode on, a choice whose message has a
    truthy [reasoning_content] is assembled once, as the opening marker of
    the stream, the reasoning, a line feed, the closing marker of the
    stream, and the visible content (empty if the message has none): the
    text between reasoning and content is the closing marker after one
    more line feed. *)
Theorem assemble_wraps_reasoning {E : Engine} (cfg : config) (choice : json)
        (mfields : list (string * json)) (reasoning : json) (rtext visible : string) :
  SHOW_REASONING cfg = true ->
  JS.get choice "message" = Some (JObj mfields) ->
  Alist.find "reasoning_content" mfields = Some reasoning ->
  JS.truthy (Some reasoning) = true ->
  JS.toString reasoning = Normal rtext ->
  JS.toString (JS.or_else (Alist.find "content" mfields) (JStr EmptyString)) = Normal visible ->
  assemble_choice cfg choice
  = Normal {| index := JS.get choice "index";
              role := Alist.find "role" mfields;
              content := JStr (THINK_OPEN ++ rtext ++ Str.LF ++ THINK_CLOSE ++ visible);
              finish_reason := JS.get choice "finish_reason" |}.
Proof.
  intros Hshow Hmsg Hr Htruthy Hrtext Hvisible.
  unfold assemble_choice.
  assert (Hnn : choice <> JNull) by (intros ->; discriminate Hmsg).
  rewrite Hmsg. cbn [JS.get_opt JS.get]. rewrite Hr, Hshow, Htruthy. cbn [andb].
  unfold JS.concat_right, bind. rewrite Hrtext, Hvisible.
  rewrite !append_assoc.
  destruct choice; try reflexivity. congruence.
Qed.

Lemma assemble_wraps_reasoning_witness :
  SHOW_REASONING merging = true
  /\ assemble_choice (E := ascii_engine) merging reasoned_choice
     = Normal {| index := Some (JNum (NumLit false 0 0));
                 role := Some (JStr "assistant");
                 content := JStr (THINK_OPEN ++ "r" ++ Str.LF ++ THINK_CLOSE ++ "c");
                 finish_reason := Some (JStr "stop") |}.
Proof.
  split; [reflexivity|].
  apply (assemble_wraps_reasoning (E := ascii_engine) merging reasoned_choice
           [("role", JStr "assistant"); ("content", JStr "c"); ("reasoning_content", JStr "r")]
           (JStr "r") "r" "c"); reflexivity.
Defined.

(** Counterexample to C8: for the reasoning [r] and the content [c] the
    assembled text is not the opening marker, [r], the closing marker and
    [c], which is what the stream writes for the same two fragments. *)
Lemma assembled_text_differs_from_stream :
  assemble_choice (E := ascii_engine) merging reasoned_choice
  = Normal {| index := Some (JNum (NumLit false 0 0));
              role := Some (JStr "assistant");
              content := JStr (THINK_OPEN ++ "r" ++ Str.LF ++ THINK_CLOSE ++ "c");
              finish_reason := Some (JStr "stop") |}
  /\ (THINK_OPEN ++ "r" ++ Str.LF ++ THINK_CLOSE ++ "c")%string
     <> (THINK_OPEN ++ "r" ++ THINK_CLOSE ++ "c")%string
  /\ emitted_text (E := ascii_engine) merging false [delta_event (Some "r") (Some "c")]
     = (THINK_OPEN ++ "r" ++ THINK_CLOSE ++ "c")%string.
Proof.
  split; [reflexivity|]. split; [discriminate | reflexivity].
Qed.

(* ================================================================= *)
(** * Further properties *)

(** ** Model resolution *)

Lemma MODEL_MAPPING_get_truthy (key : string) (hit : model_ref) :
  MODEL_MAPPING_get key = Some hit -> model_ref_truthy hit = true.
Proof.
  unfold MODEL_MAPPING_get. intros Hget.
  destruct (Alist.find key MODEL_MAPPING) as [v|] eqn:Hf.
  - injection Hget as <-. simpl in Hf.
    repeat match type of Hf with
           | (if ?c then _ else _) = _ => destruct c; [injection Hf as <-; reflexivity|]
           end.
    discriminate Hf.
  - destruct (existsb _ _); [injection Hget as <-; reflexivity | discriminate].
Qed.

(** The call on a key that the static lookup answers. *)
Lemma getOptimalModel_static {E : Engine} (cfg : config) (name : string) (hit : model_ref)
      (cache : Map.t) :
  MODEL_MAPPING_get name = Some hit ->
  getOptimalModel cfg (JStr name) cache = (Normal hit, cache).
Proof.
  intros Hget. unfold getOptimalModel. simpl JS.toString. cbv iota beta zeta.
  rewrite Hget, (MODEL_MAPPING_get_truthy name hit Hget). reflexivity.
Qed.

(** X1.  Every model that [GET /v1/models] lists is resolved from the
    static table: the answer is the backend model the table gives for it,
    whatever the cache holds, and the cache is left as it was. *)
Theorem listed_models_bypass_cache {E : Engine} (cfg : config) (clock : nat -> json)
        (id : string) (cache : Map.t) :
  In id (listed_ids (list_models clock)) ->
  exists backend,
    Alist.find id MODEL_MAPPING = Some backend
    /\ getOptimalModel cfg (JStr id) cache = (Normal (BackendModel backend), cache).
Proof.
  intros Hin. simpl in Hin.
  repeat (destruct Hin as [<- | Hin];
          [eexists; split; [reflexivity | reflexivity]|]).
  contradiction.
Qed.

Lemma listed_models_bypass_cache_witness :
  In "claude-3-opus" (listed_ids (list_models (fun _ => JNum (NumLit false 1700000000000 0))))
  /\ exists backend,
       Alist.find "claude-3-opus" MODEL_MAPPING = Some backend
       /\ getOptimalModel (E := ascii_engine) shipped (JStr "claude-3-opus")
                          [("claude-3-opus", "meta/llama-3.1-405b-instruct")]
          = (Normal (BackendModel backend),
             [("claude-3-opus", "meta/llama-3.1-405b-instruct")]).
Proof.
  split; [simpl; tauto|].
  apply (listed_models_bypass_cache (E := ascii_engine) shipped
           (fun _ => JNum (NumLit false 1700000000000 0)) "claude-3-opus").
  simpl; tauto.
Defined.

(** X2.  Asking for the same model twice in a row gives the same answer
    twice, and the second call leaves the cache as the first one left it:
    for every requested value, string or not, and every cache. *)
Theorem resolution_is_idempotent {E : Engine} (cfg : config) (requestedModel : json)
        (cache : Map.t) :
  getOptimalModel cfg requestedModel (snd (getOptimalModel cfg requestedModel cache))
  = getOptimalModel cfg requestedModel cache.
Proof.
  destruct (JS.toString requestedModel) as [key|e] eqn:Hkey.
  - destruct (MODEL_MAPPING_get key) as [hit|] eqn:Hstatic.
    + assert (Hall : forall c, getOptimalModel cfg requestedModel c = (Normal hit, c)).
      { intros c. unfold getOptimalModel. rewrite Hkey. cbv zeta.
        rewrite Hstatic, (MODEL_MAPPING_get_truthy key hit Hstatic). reflexivity. }
      rewrite !Hall. reflexivity.
    + destruct requestedModel as [| | |name| |];
        try (unfold getOptimalModel; rewrite Hkey; cbv zeta; rewrite Hstatic; reflexivity).
      simpl in Hkey. injection Hkey as <-.
      destruct (Map.get name cache) as [cached|] eqn:Hcache.
      * rewrite (getOptimalModel_cached cfg name cached cache Hstatic Hcache).
        cbn [snd]. apply (getOptimalModel_cached cfg name cached cache Hstatic Hcache).
      * rewrite (getOptimalModel_unseen cfg name cache Hstatic Hcache). cbn [snd].
        apply getOptimalModel_cached; [exact Hstatic | apply find_set_same].
  - assert (Hall : forall c, getOptimalModel cfg requestedModel c = (Throw e, c)).
    { intros c. unfold getOptimalModel. now rewrite Hkey. }
    rewrite !Hall. reflexivity.
Qed.

Lemma fallback_for_in (modelLower : string) : In (fallback_for modelLower) fallback_models.
Proof.
  unfold fallback_for, fallback_models.
  destruct (Str.includes "deepseek" modelLower); [simpl; tauto|].
  destruct (_ || _); [simpl; tauto|].
  destruct (_ || _); simpl; tauto.
Qed.

Lemma Forall_set {A} (P : string * A -> Prop) (k : string) (v : A) (l : list (string * A)) :
  Forall P l -> P (k, v) -> Forall P (Alist.set k v l).
Proof.
  intros Hl Hv. induction Hl as [|[k0 v0] l H0 Hl IH]; simpl.
  - constructor; [exact Hv | constructor].
  - destruct (String.eqb_spec k k0) as [->|Hne]; constructor; auto.
Qed.

Lemma Forall_remove {A} (P : string * A -> Prop) (k : string) (l : list (string * A)) :
  Forall P l -> Forall P (Alist.remove k l).
Proof.
  intros Hl. unfold Alist.remove. induction Hl as [|kv l H0 Hl IH]; simpl; [constructor|].
  destruct (negb _); [constructor|]; auto.
Qed.

(** X3.  Whatever is requested, starting with an empty cache, the cache
    only ever holds names that the static lookup misses, each with one of
    the three models the heuristics choose from. *)
Theorem cache_holds_only_fallbacks {E : Engine} (cfg : config) (requested : list json) :
  Forall (fun entry => MODEL_MAPPING_get (fst entry) = None
                       /\ In (snd entry) fallback_models)
         (resolve_all cfg requested []).
Proof.
  unfold resolve_all.
  assert (Hgen : forall cache,
             Forall (fun entry => MODEL_MAPPING_get (fst entry) = None
                                  /\ In (snd entry) fallback_models) cache ->
             Forall (fun entry => MODEL_MAPPING_get (fst entry) = None
                                  /\ In (snd entry) fallback_models)
                    (fold_left (fun c r => snd (getOptimalModel cfg r c)) requested cache)).
  { induction requested as [|r rs IH]; intros cache Hc; simpl; [exact Hc|].
    apply IH.
    destruct (getOptimalModel_cache cfg r cache) as [-> | (name & _ & Hstatic & _ & ->)];
      [exact Hc|].
    unfold Map.set.
    assert (Hev : Forall (fun entry => MODEL_MAPPING_get (fst entry) = None
                                       /\ In (snd entry) fallback_models)
                         (if (MAX_CACHE_SIZE cfg <=? Map.size cache)%nat
                          then Map.delete (Map.first_key cache) cache else cache)).
    { destruct (_ <=? _)%nat; [|exact Hc].
      destruct (Map.first_key cache); [now apply Forall_remove | exact Hc]. }
    apply Forall_set; [exact Hev|].
    split; [exact Hstatic | apply fallback_for_in]. }
  apply Hgen. constructor.
Qed.

(** ** The cache as a window on the requests *)

Lemma resolve_all_snoc {E : Engine} (cfg : config) (requested : list json) (r : json)
      (cache : Map.t) :
  resolve_all cfg (requested ++ [r]) cache
  = snd (getOptimalModel cfg r (resolve_all cfg requested cache)).
Proof. unfold resolve_all. now rewrite fold_left_app. Qed.

Lemma skipn_snoc {A} (n : nat) (l : list A) (x : A) :
  n <= List.length l -> skipn n (l ++ [x]) = skipn n l ++ [x].
Proof.
  revert n. induction l as [|y l IH]; intros [|n] Hn; simpl in *; try reflexivity; try lia.
  apply IH. lia.
Qed.

Lemma skipn_S_tl {A} (n : nat) (l : list A) : skipn (S n) l = tl (skipn n l).
Proof.
  revert l. induction n as [|n IH]; intros [|y l]; try reflexivity.
  change (skipn (S (S n)) (y :: l)) with (skipn (S n) l).
  change (skipn (S n) (y :: l)) with (skipn n l). apply IH.
Qed.

Lemma NoDup_skipn {A} (n : nat) (l : list A) : NoDup l -> NoDup (skipn n l).
Proof.
  revert l. induction n as [|n IH]; intros [|y l] Hl; simpl; auto.
  apply IH. now inversion Hl.
Qed.

Lemma In_skipn {A} (n : nat) (l : list A) (x : A) : In x (skipn n l) -> In x l.
Proof.
  revert l. induction n as [|n IH]; intros [|y l]; simpl; auto.
Qed.

(** X4.  First in, first out, over a whole run: after distinct names that
    the static lookup misses are resolved one after the other from an
    empty cache, the cache holds exactly the most recent ones, as many as
    the bound allows, in the order they were requested. *)
Theorem cache_is_window_of_recent_names {E : Engine} (cfg : config) (names : list string) :
  1 <= MAX_CACHE_SIZE cfg ->
  NoDup names ->
  (forall name, In name names -> MODEL_MAPPING_get name = None) ->
  resolve_all cfg (map JStr names) []
  = map (fun name => (name, fallback_for (toLowerCase name)))
        (skipn (List.length names - MAX_CACHE_SIZE cfg) names).
Proof.
  intros Hbound. induction names as [|x names IH] using rev_ind; intros Hnd Hmiss.
  - reflexivity.
  - assert (Hnd' : NoDup names /\ ~ In x names).
    { apply NoDup_remove in Hnd. rewrite app_nil_r in Hnd. exact Hnd. }
    destruct Hnd' as [Hnd' Hx].
    rewrite map_app. cbn [map]. rewrite resolve_all_snoc.
    rewrite IH by (auto; intros; apply Hmiss; apply in_or_app; now left).
    set (window := skipn (List.length names - MAX_CACHE_SIZE cfg) names).
    set (entry := fun name : string => (name, fallback_for (toLowerCase name))).
    assert (Hkeys : Alist.keys (map entry window) = window).
    { unfold Alist.keys. rewrite map_map. apply map_id. }
    assert (Hfresh : Map.get x (map entry window) = None).
    { unfold Map.get. apply find_none_not_in. rewrite Hkeys.
      intros Hin. apply Hx. now apply In_skipn in Hin. }
    assert (Hxmiss : MODEL_MAPPING_get x = None).
    { apply Hmiss. apply in_or_app. right. now left. }
    rewrite (getOptimalModel_unseen cfg x (map entry window) Hxmiss Hfresh).
    cbn [snd]. unfold Map.size. rewrite length_map.
    assert (Hlen : List.length window
                   = Nat.min (List.length names) (MAX_CACHE_SIZE cfg)).
    { unfold window. rewrite length_skipn. lia. }
    rewrite length_app. cbn [List.length].
    destruct (Nat.leb_spec (MAX_CACHE_SIZE cfg) (List.length window)) as [Hfull|Hroom].
    + assert (Hge : MAX_CACHE_SIZE cfg <= List.length names) by lia.
      replace (List.length names + 1 - MAX_CACHE_SIZE cfg)
        with (S (List.length names - MAX_CACHE_SIZE cfg)) by lia.
      rewrite skipn_snoc by lia. rewrite skipn_S_tl. fold window.
      destruct window as [|w ws] eqn:Hw; [simpl in Hfull; lia|].
      cbn [map tl].
      change (Map.delete (Map.first_key (entry w :: map entry ws)) (entry w :: map entry ws))
        with (Alist.remove w ((w, fallback_for (toLowerCase w)) :: map entry ws)).
      assert (Hndw : NoDup (w :: ws)).
      { rewrite <- Hw. unfold window. now apply NoDup_skipn. }
      inversion Hndw as [|? ? Hw_notin Hws]; subst.
      assert (Hkeys' : Alist.keys (map entry ws) = ws).
      { unfold Alist.keys. rewrite map_map. apply map_id. }
      rewrite remove_head by (now rewrite Hkeys').
      unfold Map.set. rewrite set_fresh.
      * rewrite map_app. reflexivity.
      * unfold Map.get in Hfresh. simpl in Hfresh.
        destruct (String.eqb x w); [discriminate | exact Hfresh].
    + assert (Hlt : List.length names < MAX_CACHE_SIZE cfg) by lia.
      replace (List.length names + 1 - MAX_CACHE_SIZE cfg) with 0 by lia.
      assert (Hwin : window = names).
      { unfold window. replace (List.length names - MAX_CACHE_SIZE cfg) with 0 by lia.
        reflexivity. }
      rewrite Hwin in *. cbn [skipn].
      unfold Map.set. rewrite set_fresh by exact Hfresh.
      rewrite map_app. reflexivity.
Qed.

Lemma cache_is_window_of_recent_names_witness :
  1 <= 2
  /\ resolve_all (E := ascii_engine) (Config false false 2 true)
                 (map JStr ["llama-70b"; "gpt-4-mini"; "mistral"]) []
     = [("gpt-4-mini", "meta/llama-3.1-405b-instruct");
        ("mistral", "deepseek-ai/deepseek-v3.1")].
Proof.
  split; [lia|].
  apply (cache_is_window_of_recent_names (E := ascii_engine) (Config false false 2 true)
           ["llama-70b"; "gpt-4-mini"; "mistral"]).
  - simpl; lia.
  - repeat constructor; simpl; intros H;
      repeat (destruct H as [H|H]; [discriminate H|]); exact H.
  - simpl. intros name H.
    repeat (destruct H as [<-|H]; [reflexivity|]). contradiction.
Defined.

(** ** The handler: error replies and the cache across requests *)

Lemma getOptimalModel_throw_keeps_cache {E : Engine} (cfg : config) (requestedModel : json)
      (cache cache' : Map.t) (e : exn) :
  getOptimalModel cfg requestedModel cache = (Throw e, cache') -> cache' = cache.
Proof.
  intros Hrun.
  destruct (getOptimalModel_cache cfg requestedModel cache)
    as [Hsame | (name & -> & Hstatic & Hfresh & _)].
  - rewrite Hrun in Hsame. exact Hsame.
  - rewrite (getOptimalModel_unseen cfg name cache Hstatic Hfresh) in Hrun. discriminate.
Qed.

(** The cache after the handler is the one before it, or the one a call
    of [getOptimalModel] left. *)
Lemma chat_completions_cache {E : Engine} (cfg : config) (body : json) (cache : Map.t) :
  snd (chat_completions cfg body cache) = cache
  \/ exists requestedModel,
       snd (chat_completions cfg body cache)
       = snd (getOptimalModel cfg requestedModel cache).
Proof.
  unfold chat_completions.
  destruct body; try (now left);
    (destruct (negb _ || negb _ || _); [now left|];
     right; eexists;
     destruct (getOptimalModel cfg _ cache) as [[nimModel|e] c] eqn:Hrun;
     cbn [snd]; rewrite Hrun; reflexivity).
Qed.

(** X5.  Whenever the handler answers a request itself instead of calling
    the backend, the status is 400 or 500, the [code] of the error is that
    status, its [type] is [invalid_request_error], and the cache is as it
    was before the request. *)
Theorem error_reply_is_uniform {E : Engine} (cfg : config) (body : json) (cache cache' : Map.t)
        (status : nat) (err : error_body) :
  chat_completions cfg body cache = (Reply status err, cache') ->
  (status = 400 \/ status = 500)
  /\ code err = status
  /\ type err = "invalid_request_error"
  /\ cache' = cache.
Proof.
  unfold chat_completions. intros Hrun.
  assert (Hbody :
    body = JNull
    \/ (if negb (JS.truthy (JS.get body "messages")) || negb (JS.isArray (JS.get body "messages"))
            || (JS.length (JS.get body "messages") =? 0)%nat
         then
           (Reply 400
              (ErrorBody (Text "messages field is required and must be a non-empty array")
                         "invalid_request_error" 400), cache)
         else
           match getOptimalModel cfg (JS.or_else (JS.get body "model") (JStr "gpt-4o")) cache with
           | (Throw _, c) =>
               (Reply 500 (ErrorBody EngineText "invalid_request_error" 500), c)
           | (Normal nimModel, c) =>
               (Post {| model := nimModel;
                        messages := JS.get body "messages";
                        temperature := JS.or_else (JS.get body "temperature") literal_0_6;
                        max_tokens := JS.or_else (JS.get body "max_tokens") literal_2048;
                        stream := if FORCE_STREAMING cfg then Some (JBool true)
                                  else JS.get body "stream";
                        extra_body :=
                          if ENABLE_THINKING_MODE cfg
                          then Some (JObj [("chat_template_kwargs",
                                            JObj [("thinking", JBool true)])])
                          else None |}, c)
           end) = (Reply status err, cache')).
  { destruct body; try (right; exact Hrun). now left. }
  destruct Hbody as [-> | Hbody].
  - injection Hrun as <- <- <-. simpl. tauto.
  - clear Hrun. destruct (negb _ || negb _ || _).
    + injection Hbody as <- <- <-. simpl. tauto.
    + destruct (getOptimalModel cfg _ cache) as [[nimModel|e] c] eqn:Hres; [discriminate|].
      injection Hbody as <- <- <-. simpl.
      repeat split; auto. now apply getOptimalModel_throw_keeps_cache in Hres.
Qed.

Lemma error_reply_is_uniform_witness :
  chat_completions (E := ascii_engine) shipped
                   (JObj [("model", JArr []); ("messages", one_message)])
                   [("mistral", "deepseek-ai/deepseek-v3.1")]
  = (Reply 500 (ErrorBody EngineText "invalid_request_error" 500),
     [("mistral", "deepseek-ai/deepseek-v3.1")])
  /\ (500 = 400 \/ 500 = 500).
Proof.
  split; [reflexivity|].
  apply (error_reply_is_uniform (E := ascii_engine) shipped
           (JObj [("model", JArr []); ("messages", one_message)])
           [("mistral", "deepseek-ai/deepseek-v3.1")]
           [("mistral", "deepseek-ai/deepseek-v3.1")]
           500 (ErrorBody EngineText "invalid_request_error" 500)).
  reflexivity.
Defined.

(** X6.  A [model] that is truthy but not a string (a number, [true], an
    array, an object) is answered with status 500 and no backend call,
    unless its text as a property key is a name the static lookup
    answers: the cache is not searched for it and is left as it was. *)
Theorem non_string_model_is_rejected {E : Engine} (cfg : config)
        (fields : list (string * json)) (cache : Map.t) (m : json) (ms : list json)
        (requested : json) :
  Alist.find "messages" fields = Some (JArr (m :: ms)) ->
  Alist.find "model" fields = Some requested ->
  JS.truthy (Some requested) = true ->
  (forall name, requested <> JStr name) ->
  (forall key, JS.toString requested = Normal key -> MODEL_MAPPING_get key = None) ->
  chat_completions cfg (JObj fields) cache
  = (Reply 500 (ErrorBody EngineText "invalid_request_error" 500), cache).
Proof.
  intros Hmsg Hmodel Htruthy Hns Hmiss.
  rewrite (chat_completions_valid cfg fields cache m ms Hmsg), Hmodel.
  unfold JS.or_else. rewrite Htruthy.
  unfold getOptimalModel.
  destruct (JS.toString requested) as [key|e] eqn:Hkey; [|reflexivity].
  cbv zeta. rewrite (Hmiss key eq_refl).
  destruct requested; try reflexivity. exfalso. now apply (Hns s).
Qed.

Lemma non_string_model_is_rejected_witness :
  JS.truthy (Some (JNum (NumLit false 7 0))) = true
  /\ chat_completions (E := ascii_engine) shipped
       (JObj [("model", JNum (NumLit false 7 0)); ("messages", one_message)]) []
     = (Reply 500 (ErrorBody EngineText "invalid_request_error" 500), []).
Proof.
  split; [reflexivity|].
  apply (non_string_model_is_rejected (E := ascii_engine) shipped
           [("model", JNum (NumLit false 7 0)); ("messages", one_message)] []
           (JObj [("role", JStr "user"); ("content", JStr "hi")]) []
           (JNum (NumLit false 7 0))).
  - reflexivity.
  - reflexivity.
  - reflexivity.
  - discriminate.
  - intros key Hkey. injection Hkey as <-. reflexivity.
Defined.

Lemma serve_all_keeps_cache_ok {E : Engine} (cfg : config) (bodies : list json)
      (cache : Map.t) :
  1 <= MAX_CACHE_SIZE cfg ->
  cache_ok cfg cache ->
  cache_ok cfg (serve_all cfg bodies cache).
Proof.
  intros Hbound. revert cache. unfold serve_all.
  induction bodies as [|b bs IH]; simpl; intros cache Hok; [exact Hok|].
  apply IH.
  destruct (chat_completions_cache cfg b cache) as [-> | [r ->]]; [exact Hok|].
  now apply getOptimalModel_keeps_cache_ok.
Qed.

(** X7.  After any run of chat-completion requests, valid or not, from a
    fresh start, [GET /health] reports as [cached_models] the size of the
    cache, and that number is never above the bound. *)
Theorem health_reports_bounded_cache {E : Engine} (cfg : config) (bodies : list json) :
  1 <= MAX_CACHE_SIZE cfg ->
  exists n,
    JS.get (health cfg (serve_all cfg bodies [])) "cached_models"
    = Some (JNum (NumLit false (N.of_nat n) 0))
    /\ n = Map.size (serve_all cfg bodies [])
    /\ n <= MAX_CACHE_SIZE cfg.
Proof.
  intros Hbound. exists (Map.size (serve_all cfg bodies [])).
  split; [reflexivity|]. split; [reflexivity|].
  apply (serve_all_keeps_cache_ok cfg bodies [] Hbound).
  split; [constructor | simpl; lia].
Qed.

Lemma health_reports_bounded_cache_witness :
  1 <= MAX_CACHE_SIZE shipped
  /\ exists n,
       JS.get (health shipped
                 (serve_all (E := ascii_engine) shipped
                    [JObj [("model", JStr "mistral"); ("messages", one_message)];
                     JObj [("model", JStr "mistral")];
                     body_model_constructor] []))
              "cached_models"
       = Some (JNum (NumLit false (N.of_nat n) 0))
       /\ n = Map.size (serve_all (E := ascii_engine) shipped
                          [JObj [("model", JStr "mistral"); ("messages", one_message)];
                           JObj [("model", JStr "mistral")];
                           body_model_constructor] [])
       /\ n <= MAX_CACHE_SIZE shipped.
Proof.
  split; [simpl; lia|].
  apply (health_reports_bounded_cache (E := ascii_engine) shipped
           [JObj [("model", JStr "mistral"); ("messages", one_message)];
            JObj [("model", JStr "mistral")];
            body_model_constructor]).
  simpl; lia.
Defined.

(** ** Strings: what the tests on a line mean *)

Lemma startsWith_iff (p s : string) :
  Str.startsWith p s = true <-> exists b, s = (p ++ b)%string.
Proof.
  revert s. induction p as [|a p IH]; intros s; simpl.
  - split; [intros _; now exists s | reflexivity].
  - destruct s as [|c s].
    + split; [discriminate | intros [b Hb]; discriminate].
    + destruct (Ascii.eqb_spec a c) as [->|Hne].
      * rewrite IH. split; intros [b Hb]; exists b; congruence.
      * split; [discriminate | intros [b Hb]; congruence].
Qed.

(** X8.  [includes] is containment anywhere: a text includes [sub] exactly
    when it is some text, then [sub], then some text; [startsWith] is the
    case where nothing comes before, and then [slice] at the length of the
    prefix gives what comes after it.  So the test for [[DONE]] is met by
    any line with those six characters in it, and the payload that is
    parsed is the line without its first six characters. *)
Theorem includes_is_containment (sub s : string) :
  (Str.includes sub s = true <-> exists a b, s = (a ++ sub ++ b)%string)
  /\ (Str.startsWith sub s = true <-> exists b, s = (sub ++ b)%string)
  /\ (Str.startsWith sub s = true -> s = (sub ++ Str.slice (String.length sub) s)%string).
Proof.
  split; [|split; [apply startsWith_iff|]].
  - induction s as [|c s IH].
    + simpl. rewrite startsWith_iff. split.
      * intros [b Hb]. exists EmptyString, b. exact Hb.
      * intros (a & b & Hab). destruct a; [|discriminate]. now exists b.
    + cbn [Str.includes]. rewrite orb_true_iff, IH, startsWith_iff. split.
      * intros [[b Hb] | (a & b & Hab)].
        -- exists EmptyString, b. exact Hb.
        -- exists (String c a), b. simpl. now rewrite Hab.
      * intros (a & b & Hab). destruct a as [|c' a].
        -- left. now exists b.
        -- right. exists a, b. simpl in Hab. now injection Hab.
  - revert s. induction sub as [|a p IH]; intros s; simpl; [reflexivity|].
    destruct s as [|c s]; [discriminate|].
    destruct (Ascii.eqb_spec a c) as [->|Hne]; [|discriminate].
    intros Hp. now rewrite <- (IH s Hp).
Qed.

Lemma includes_is_containment_witness :
  Str.startsWith "data: " "data: [DONE]" = true
  /\ "data: [DONE]" = ("data: " ++ Str.slice (String.length "data: ") "data: [DONE]")%string.
Proof.
  split; [reflexivity|].
  apply (includes_is_containment "data: " "data: [DONE]"). reflexivity.
Defined.

Lemma split_lf_not_nil (s : string) : Str.split_lf s <> [].
Proof.
  induction s as [|c s IH]; simpl; [discriminate|].
  destruct (Ascii.eqb c "010"); [discriminate|].
  destruct (Str.split_lf s); [contradiction | discriminate].
Qed.

Lemma includes_LF_cons (c : ascii) (s : string) :
  Str.includes Str.LF (String c s) = Ascii.eqb "010" c || Str.includes Str.LF s.
Proof.
  cbn [Str.includes Str.startsWith Str.LF]. now destruct (Ascii.eqb "010" c).
Qed.

Lemma occurrences_LF_cons (c : ascii) (s : string) :
  Str.occurrences Str.LF (String c s)
  = (if Ascii.eqb c "010" then 1 else 0) + Str.occurrences Str.LF s.
Proof.
  cbn [Str.occurrences Str.startsWith Str.LF]. rewrite (Ascii.eqb_sym "010" c).
  now destruct (Ascii.eqb c "010").
Qed.

Lemma split_lf_joined (s : string) : String.concat Str.LF (Str.split_lf s) = s.
Proof.
  induction s as [|c s IH]; [reflexivity|].
  pose proof (split_lf_not_nil s) as Hnn. cbn [Str.split_lf].
  destruct (Str.split_lf s) as [|l ls] eqn:Hs; [contradiction|].
  destruct (Ascii.eqb_spec c "010") as [->|Hne].
  - change (String.concat Str.LF (EmptyString :: l :: ls))
      with (EmptyString ++ Str.LF ++ String.concat Str.LF (l :: ls))%string.
    rewrite IH. reflexivity.
  - destruct ls as [|l' ls].
    + cbn [String.concat] in *. now rewrite IH.
    + change (String.concat Str.LF (String c l :: l' :: ls))
        with (String c (l ++ Str.LF ++ String.concat Str.LF (l' :: ls)))%string.
      change (String.concat Str.LF (l :: l' :: ls))
        with (l ++ Str.LF ++ String.concat Str.LF (l' :: ls))%string in IH.
      now rewrite IH.
Qed.

Lemma split_lf_pieces_free (s : string) :
  Forall (fun piece => Str.includes Str.LF piece = false) (Str.split_lf s).
Proof.
  induction s as [|c s IH]; [constructor; [reflexivity | constructor]|].
  pose proof (split_lf_not_nil s) as Hnn. cbn [Str.split_lf].
  destruct (Str.split_lf s) as [|l ls] eqn:Hs; [contradiction|].
  destruct (Ascii.eqb_spec c "010") as [->|Hne].
  - constructor; [reflexivity | exact IH].
  - inversion IH as [|? ? Hl Hls]; subst. constructor; [|exact Hls].
    rewrite includes_LF_cons, Hl.
    destruct (Ascii.eqb_spec "010" c); [congruence | reflexivity].
Qed.

Lemma split_lf_length (s : string) :
  List.length (Str.split_lf s) = S (Str.occurrences Str.LF s).
Proof.
  induction s as [|c s IH]; [reflexivity|].
  pose proof (split_lf_not_nil s) as Hnn.
  rewrite occurrences_LF_cons. cbn [Str.split_lf].
  destruct (Str.split_lf s) as [|l ls] eqn:Hs; [contradiction|].
  destruct (Ascii.eqb c "010"); cbn [List.length] in *; rewrite IH; reflexivity.
Qed.

(** X9.  [split] on line feeds loses nothing and leaves no line feed
    behind: the pieces joined by line feeds are the text again, no piece
    contains a line feed, and there is one piece more than there are line
    feeds (so always at least one). *)
Theorem split_lf_round_trip (s : string) :
  String.concat Str.LF (Str.split_lf s) = s
  /\ Forall (fun piece => Str.includes Str.LF piece = false) (Str.split_lf s)
  /\ List.length (Str.split_lf s) = S (Str.occurrences Str.LF s).
Proof.
  split; [apply split_lf_joined|].
  split; [apply split_lf_pieces_free | apply split_lf_length].
Qed.

(** ** The stream: chunks and lines *)

Lemma last_app_l {A} (l1 l2 : list A) (d : A) :
  l2 <> [] -> last (l1 ++ l2) d = last l2 d.
Proof.
  intros Hnn. induction l1 as [|x l1 IH]; [reflexivity|].
  simpl. rewrite IH. destruct (l1 ++ l2) eqn:Happ; [|reflexivity].
  apply app_eq_nil in Happ. tauto.
Qed.

(** The pieces of a text continued: the complete lines of the first part,
    then the pieces of its unfinished line continued. *)
Lemma split_lf_app (a b : string) :
  Str.split_lf (a ++ b)
  = removelast (Str.split_lf a) ++ Str.split_lf (last (Str.split_lf a) EmptyString ++ b).
Proof.
  induction a as [|c a IH]; [reflexivity|].
  pose proof (split_lf_not_nil a) as Hnn.
  change (String c a ++ b)%string with (String c (a ++ b)).
  cbn [Str.split_lf]. rewrite IH. clear IH.
  destruct (Str.split_lf a) as [|l ls]; [contradiction|].
  destruct (Ascii.eqb c "010") eqn:Hc.
  - reflexivity.
  - destruct ls as [|l' ls].
    + cbn [removelast last app].
      change (String c l ++ b)%string with (String c (l ++ b)).
      cbn [Str.split_lf]. now rewrite Hc.
    + reflexivity.
Qed.

Lemma no_lf_one_piece (s : string) :
  Str.includes Str.LF s = false -> Str.split_lf s = [s].
Proof.
  induction s as [|c s IH]; [reflexivity|].
  rewrite includes_LF_cons, orb_false_iff, (Ascii.eqb_sym "010" c). intros [Hc Hs].
  cbn [Str.split_lf]. now rewrite Hc, (IH Hs).
Qed.

Lemma split_lf_terminated (piece : string) :
  Str.includes Str.LF piece = false ->
  Str.split_lf (piece ++ Str.LF) = [piece; EmptyString].
Proof.
  induction piece as [|c piece IH]; [reflexivity|].
  rewrite includes_LF_cons, orb_false_iff, (Ascii.eqb_sym "010" c). intros [Hc Hp].
  change (String c piece ++ Str.LF)%string with (String c (piece ++ Str.LF)).
  cbn [Str.split_lf]. now rewrite Hc, (IH Hp).
Qed.

(** X10.  How the backend cuts its text into chunks does not matter: a
    text received in two chunks is written exactly as the same text
    received in one, and leaves the same buffer and the same flag.  (A
    chunk here is the text [chunk.toString()] gives.) *)
Theorem chunking_does_not_matter {E : Engine} (cfg : config) (st : StreamState)
        (chunk1 chunk2 : string) :
  on_data cfg st (chunk1 ++ chunk2)
  = (let '(st1, out1) := on_data cfg st chunk1 in
     let '(st2, out2) := on_data cfg st1 chunk2 in
     (st2, out1 ++ out2)).
Proof.
  unfold on_data. rewrite <- append_assoc, split_lf_app.
  set (lines1 := Str.split_lf (buffer st ++ chunk1)).
  set (lines2 := Str.split_lf (last lines1 EmptyString ++ chunk2)).
  assert (Hnn : lines2 <> []) by apply split_lf_not_nil.
  rewrite removelast_app by exact Hnn. rewrite last_app_l by exact Hnn.
  rewrite handle_lines_app.
  destruct (handle_lines cfg (reasoningStarted st) (removelast lines1)) as [s1 o1].
  cbn [buffer reasoningStarted]. fold lines2.
  destruct (handle_lines cfg s1 (removelast lines2)) as [s2 o2]. reflexivity.
Qed.

(** X11.  The buffer holds the unfinished line and nothing else: after
    every chunk it contains no line feed; a chunk that completes no line
    is only added to it, nothing being written and the flag staying as it
    was; and after a text that ends with a line feed it is empty. *)
Theorem buffer_holds_unfinished_line {E : Engine} (cfg : config) (st : StreamState)
        (chunk : string) :
  Str.includes Str.LF (buffer (fst (on_data cfg st chunk))) = false
  /\ (Str.includes Str.LF (buffer st ++ chunk) = false ->
      on_data cfg st chunk
      = ({| buffer := buffer st ++ chunk; reasoningStarted := reasoningStarted st |}, []))
  /\ (forall text, (buffer st ++ chunk)%string = (text ++ Str.LF)%string ->
      buffer (fst (on_data cfg st chunk)) = EmptyString).
Proof.
  split; [|split].
  - unfold on_data.
    destruct (handle_lines cfg _ _) as [s o]. cbn [fst buffer].
    pose proof (split_lf_pieces_free (buffer st ++ chunk)) as Hfree.
    pose proof (split_lf_not_nil (buffer st ++ chunk)) as Hnn.
    rewrite Forall_forall in Hfree. apply Hfree.
    destruct (Str.split_lf (buffer st ++ chunk)) as [|l ls]; [contradiction|].
    rewrite (app_removelast_last EmptyString (l := l :: ls)) at 2 by discriminate.
    apply in_or_app. right. now left.
  - intros Hfree. unfold on_data. rewrite (no_lf_one_piece _ Hfree). reflexivity.
  - intros text Htext. unfold on_data.
    destruct (handle_lines cfg _ _) as [s o]. cbn [fst buffer].
    rewrite Htext, split_lf_app.
    rewrite last_app_l by apply split_lf_not_nil.
    assert (Hlast : Str.includes Str.LF (last (Str.split_lf text) EmptyString) = false).
    { pose proof (split_lf_pieces_free text) as Hfree.
      pose proof (split_lf_not_nil text) as Hnn.
      rewrite Forall_forall in Hfree. apply Hfree.
      destruct (Str.split_lf text) as [|l ls]; [contradiction|].
      rewrite (app_removelast_last EmptyString (l := l :: ls)) at 2 by discriminate.
      apply in_or_app. right. now left. }
    now rewrite (split_lf_terminated _ Hlast).
Qed.

Lemma buffer_holds_unfinished_line_witness :
  Str.includes Str.LF ("data: [DO" ++ "NE]") = false
  /\ on_data (E := ascii_engine) merging {| buffer := "data: [DO"; reasoningStarted := true |}
             "NE]"
     = ({| buffer := "data: [DO" ++ "NE]"; reasoningStarted := true |}, []).
Proof.
  split; [reflexivity|].
  apply (buffer_holds_unfinished_line (E := ascii_engine) merging
           {| buffer := "data: [DO"; reasoningStarted := true |} "NE]").
  reflexivity.
Defined.

Lemma handle_line_writes {E : Engine} (cfg : config) (started : bool) (line : string) :
  List.length (snd (handle_line cfg started line))
  = if Str.startsWith "data: " line then 1 else 0.
Proof.
  unfold handle_line. destruct (Str.startsWith "data: " line); [|reflexivity].
  destruct (Str.includes "[DONE]" line); [reflexivity|].
  destruct (JSON.parse _) as [data|e]; [|reflexivity].
  now destruct (transcode cfg started data) as [s [d|e]].
Qed.

(** X12.  Every complete line that starts with [data: ] is answered by
    exactly one write, and every other line (a comment, an empty line, an
    [event:] line) by none: the writes of a chunk are as many as its data
    lines, whatever they contain and whatever the mode. *)
Theorem one_write_per_data_line {E : Engine} (cfg : config) (started : bool)
        (lines : list string) :
  List.length (snd (handle_lines cfg started lines))
  = List.length (filter (Str.startsWith "data: ") lines).
Proof.
  revert started. induction lines as [|line lines IH]; intros started; [reflexivity|].
  cbn [handle_lines filter].
  pose proof (handle_line_writes cfg started line) as Hone.
  destruct (handle_line cfg started line) as [s o].
  specialize (IH s). destruct (handle_lines cfg s lines) as [s' o'].
  cbn [snd] in *. rewrite length_app, Hone, IH.
  now destruct (Str.startsWith "data: " line).
Qed.

(** ** The stream: what transcoding keeps and what it changes *)

Lemma transcode_pass_through {E : Engine} (cfg : config) (started started' : bool)
      (data : json) :
  SHOW_REASONING cfg = false ->
  transcode cfg started data = (started, snd (transcode cfg started' data)).
Proof.
  intros Hshow. unfold transcode. rewrite Hshow.
  destruct data; try reflexivity; now destruct (JS.truthy _).
Qed.

Lemma handle_line_pass_through {E : Engine} (cfg : config) (started : bool) (line : string) :
  SHOW_REASONING cfg = false ->
  handle_line cfg started line = (started, snd (handle_line cfg false line)).
Proof.
  intros Hshow. unfold handle_line.
  destruct (Str.startsWith "data: " line); [|reflexivity].
  destruct (Str.includes "[DONE]" line); [reflexivity|].
  destruct (JSON.parse _) as [data|e]; [|reflexivity].
  rewrite (transcode_pass_through cfg started false data Hshow).
  destruct (transcode cfg false data) as [s [d|e]]; reflexivity.
Qed.

Lemma handle_lines_pass_through {E : Engine} (cfg : config) (started : bool)
      (lines : list string) :
  SHOW_REASONING cfg = false ->
  handle_lines cfg started lines = (started, snd (handle_lines cfg false lines)).
Proof.
  intros Hshow. revert started. induction lines as [|line lines IH]; intros started.
  - reflexivity.
  - cbn [handle_lines].
    pose proof (handle_line_pass_through cfg false line Hshow) as Hf.
    rewrite (handle_line_pass_through cfg started line Hshow).
    destruct (handle_line cfg false line) as [s0 o0]. cbn [snd] in *.
    injection Hf as ->.
    rewrite (IH started).
    destruct (handle_lines cfg false lines) as [s1 o1]. reflexivity.
Qed.

(** X13.  In pass-through mode the stream has no memory: the flag is
    never changed, and what is written for a run of lines does not depend
    on it. *)
Theorem pass_through_is_stateless {E : Engine} (cfg : config) (started started' : bool)
        (lines : list string) :
  SHOW_REASONING cfg = false ->
  handle_lines cfg started lines = (started, snd (handle_lines cfg started' lines)).
Proof.
  intros Hshow.
  rewrite (handle_lines_pass_through cfg started lines Hshow).
  now rewrite (handle_lines_pass_through cfg started' lines Hshow).
Qed.

Lemma pass_through_is_stateless_witness :
  SHOW_REASONING shipped = false
  /\ handle_lines (E := ascii_engine) shipped true
       [delta_line "reasoning_content" "a"; delta_line "content" "c"]
     = (true,
        snd (handle_lines (E := ascii_engine) shipped false
               [delta_line "reasoning_content" "a"; delta_line "content" "c"])).
Proof.
  split; [reflexivity|].
  apply (pass_through_is_stateless (E := ascii_engine) shipped true false
           [delta_line "reasoning_content" "a"; delta_line "content" "c"]).
  reflexivity.
Defined.

Lemma find_update_other {A} (k k' : string) (f : A -> A) (l : list (string * A)) :
  k <> k' -> Alist.find k (Alist.update k' f l) = Alist.find k l.
Proof.
  intros Hne. induction l as [|[k0 v0] l IH]; [reflexivity|].
  simpl. destruct (String.eqb_spec k' k0) as [->|Hk]; simpl.
  - destruct (String.eqb_spec k k0); [congruence | reflexivity].
  - now rewrite IH.
Qed.

(** A transcoded event is the event itself, or the event after one
    write of [content] and one removal of [reasoning_content] in the delta
    of its first choice. *)
Lemma transcode_shape {E : Engine} (cfg : config) (started started' : bool)
      (data data' : json) :
  transcode cfg started data = (started', Normal data') ->
  data' = data
  \/ exists v, data' = on_first_delta (fun d => JS.delete "reasoning_content"
                                                  (JS.set "content" v d)) data.
Proof.
  intros Hrun.
  rewrite (transcode_body cfg started data (transcode_normal_not_null _ _ _ _ _ Hrun)) in Hrun.
  destruct (JS.truthy (first_delta data)); [|injection Hrun as _ <-; now left].
  destruct (SHOW_REASONING cfg).
  - destruct (combine started _ _) as [s [combined|e]]; [|discriminate].
    destruct (JS.truthy (Some combined)); injection Hrun as _ <-; [right; eauto | now left].
  - injection Hrun as _ <-. right. eauto.
Qed.

Lemma rewritten_delta_keeps_other_keys (v d : json) (k : string) :
  k <> "content" -> k <> "reasoning_content" ->
  JS.get_opt (Some (JS.delete "reasoning_content" (JS.set "content" v d))) k
  = JS.get_opt (Some d) k.
Proof.
  intros Hc Hr. destruct d; try reflexivity. simpl.
  rewrite find_remove_other by exact Hr. now apply find_set_other.
Qed.

(** X14.  Transcoding touches two fields and nothing else: in the event
    that is written, every top-level field but [choices] is the one that
    came, every choice after the first is the one that came, the first
    choice keeps every field but [delta], and its delta keeps every field
    but [content] and [reasoning_content].  An event without a first delta
    (no choices, or a delta that is absent or [null]) is written as it
    came and leaves the flag alone. *)
Theorem transcoding_keeps_the_rest {E : Engine} (cfg : config) (started started' : bool)
        (data data' : json) :
  transcode cfg started data = (started', Normal data') ->
  (forall k, k <> "choices" -> JS.get data' k = JS.get data k)
  /\ (forall first rest,
        JS.get data "choices" = Some (JArr (first :: rest)) ->
        exists first',
          JS.get data' "choices" = Some (JArr (first' :: rest))
          /\ forall k, k <> "delta" -> JS.get first' k = JS.get first k)
  /\ (forall k, k <> "content" -> k <> "reasoning_content" ->
        JS.get_opt (first_delta data') k = JS.get_opt (first_delta data) k)
  /\ (JS.truthy (first_delta data) = false -> data' = data /\ started' = started).
Proof.
  intros Hrun.
  split; [|split; [|split]].
  - intros k Hk.
    destruct (transcode_shape cfg started started' data data' Hrun) as [-> | [v ->]];
      [reflexivity|].
    unfold on_first_delta. destruct data; try reflexivity.
    simpl. now apply find_update_other.
  - intros first rest Hchoices.
    destruct (transcode_shape cfg started started' data data' Hrun) as [-> | [v ->]].
    + exists first. split; [exact Hchoices | reflexivity].
    + exists (JS.update "delta" (fun d => JS.delete "reasoning_content"
                                             (JS.set "content" v d)) first).
      split.
      * unfold on_first_delta. destruct data; try discriminate Hchoices.
        simpl in *. rewrite find_update_same, Hchoices. reflexivity.
      * intros k Hk. destruct first; try reflexivity. simpl.
        now apply find_update_other.
  - intros k Hc Hr.
    destruct (transcode_shape cfg started started' data data' Hrun) as [-> | [v ->]];
      [reflexivity|].
    rewrite first_delta_on_first_delta.
    destruct (first_delta data) as [d|]; [|reflexivity].
    now apply rewritten_delta_keeps_other_keys.
  - intros Hfalsy.
    rewrite (transcode_body cfg started data (transcode_normal_not_null _ _ _ _ _ Hrun)) in Hrun.
    rewrite Hfalsy in Hrun. injection Hrun as <- <-. split; reflexivity.
Qed.

Lemma transcoding_keeps_the_rest_witness :
  transcode (E := ascii_engine) merging false full_event
  = (false, Normal (full_event_written (THINK_OPEN ++ "why" ++ THINK_CLOSE ++ "so")))
  /\ JS.get (full_event_written (THINK_OPEN ++ "why" ++ THINK_CLOSE ++ "so")) "id"
     = JS.get full_event "id".
Proof.
  split; [reflexivity|].
  apply (transcoding_keeps_the_rest (E := ascii_engine) merging false false full_event
           (full_event_written (THINK_OPEN ++ "why" ++ THINK_CLOSE ++ "so")));
    [reflexivity | discriminate].
Defined.

Lemma combine_flag {E : Engine} (started started' : bool) (reasoning content : jsval)
      (combined : json) :
  combine started reasoning content = (started', Normal combined) ->
  started' = if JS.truthy content then false else started || JS.truthy reasoning.
Proof.
  unfold combine.
  assert (Hsecond : forall (s : bool) (combined0 : json),
             match content with
             | Some c =>
                 if JS.truthy content && s
                 then
                   match (x <- JS.concat_right THINK_CLOSE c ;; JS.add combined0 (JStr x)) with
                   | Normal combined1 => (false, Normal combined1)
                   | Throw e => (s, Throw e)
                   end
                 else if JS.truthy content then (s, JS.add combined0 c)
                 else (s, Normal combined0)
             | None => (s, Normal combined0)
             end = (started', Normal combined) ->
             started' = if JS.truthy content then false else s).
  { intros s combined0. destruct content as [c|]; [|intros Heq; now injection Heq as <- _].
    destruct (JS.truthy (Some c)); cbn [andb].
    - destruct s.
      + destruct (x <- JS.concat_right THINK_CLOSE c ;; JS.add combined0 (JStr x));
          [intros Heq; now injection Heq as <- _ | discriminate].
      + intros Heq. destruct (JS.add combined0 c); [|discriminate].
        now injection Heq as <- _.
    - intros Heq. now injection Heq as <- _. }
  destruct reasoning as [r|].
  - destruct (JS.truthy (Some r)) eqn:Hr; cbn [andb].
    + rewrite orb_true_r. destruct started; cbn [negb].
      * apply Hsecond.
      * destruct (JS.concat_right THINK_OPEN r) as [t|e]; [|discriminate].
        apply Hsecond.
    + rewrite orb_false_r. apply Hsecond.
  - rewrite orb_false_r. apply Hsecond.
Qed.

(** X15.  The flag after an event, in merge mode and for fragments of any
    JSON type: reasoning is closed after every event whose first delta has
    a truthy [content]; otherwise it is open if it was open or if the
    delta has a truthy [reasoning_content], and closed if not. *)
Theorem flag_follows_the_fragments {E : Engine} (cfg : config) (started started' : bool)
        (data data' : json) :
  SHOW_REASONING cfg = true ->
  transcode cfg started data = (started', Normal data') ->
  started'
  = if JS.truthy (JS.get_opt (first_delta data) "content") then false
    else started || JS.truthy (JS.get_opt (first_delta data) "reasoning_content").
Proof.
  intros Hshow Hrun.
  rewrite (transcode_body cfg started data (transcode_normal_not_null _ _ _ _ _ Hrun)) in Hrun.
  rewrite Hshow in Hrun.
  destruct (JS.truthy (first_delta data)) eqn:Hdelta.
  - destruct (combine started _ _) as [s [combined|e]] eqn:Hc; [|discriminate].
    apply combine_flag in Hc.
    destruct (JS.truthy (Some combined)); injection Hrun as <- _; exact Hc.
  - injection Hrun as <- _.
    rewrite !(falsy_has_no_property _ _ Hdelta). cbn [JS.truthy]. now rewrite orb_false_r.
Qed.

Lemma flag_follows_the_fragments_witness :
  SHOW_REASONING merging = true
  /\ transcode (E := ascii_engine) merging false full_event
     = (false, Normal (full_event_written (THINK_OPEN ++ "why" ++ THINK_CLOSE ++ "so")))
  /\ false
     = (if JS.truthy (JS.get_opt (first_delta full_event) "content") then false
        else false || JS.truthy (JS.get_opt (first_delta full_event) "reasoning_content")).
Proof.
  split; [reflexivity|]. split; [reflexivity|].
  apply (flag_follows_the_fragments (E := ascii_engine) merging false false full_event
           (full_event_written (THINK_OPEN ++ "why" ++ THINK_CLOSE ++ "so")));
    reflexivity.
Defined.

(** X16.  In merge mode a transcoded line whose first delta brings a
    reasoning fragment and a visible fragment together (both non-empty
    strings) is written as an event whose first delta has one content,
    made of the opening marker unless reasoning was open, the reasoning,
    the closing marker and the visible text, and has no
    [reasoning_content]; reasoning is closed after it. *)
Theorem both_fragments_in_one_delta {E : Engine} (cfg : config) (started : bool)
        (line : string) (data : json) (fields : list (string * json)) (r c : string) :
  SHOW_REASONING cfg = true ->
  transcoded_line line data fields ->
  Alist.find "reasoning_content" fields = Some (JStr r) ->
  Str.nonempty r = true ->
  Alist.find "content" fields = Some (JStr c) ->
  Str.nonempty c = true ->
  exists data',
    handle_line cfg started line = (false, [Event data'])
    /\ JS.get_opt (first_delta data') "content"
       = Some (JStr ((if started then r else THINK_OPEN ++ r) ++ THINK_CLOSE ++ c))
    /\ JS.get_opt (first_delta data') "reasoning_content" = None.
Proof.
  intros Hshow Hline Hr Hnr Hc Hnc.
  apply (handle_line_merges cfg started false line data fields _ Hshow Hline).
  - rewrite Hr, Hc. now apply combine_both.
  - cbn [JS.truthy]. apply nonempty_app_r. reflexivity.
Qed.

Lemma both_fragments_in_one_delta_witness :
  SHOW_REASONING merging = true
  /\ exists data',
       handle_line (E := ascii_engine) merging true both_fragments_line
       = (false, [Event data'])
       /\ JS.get_opt (first_delta data') "content"
          = Some (JStr ("why" ++ THINK_CLOSE ++ "so"))
       /\ JS.get_opt (first_delta data') "reasoning_content" = None.
Proof.
  split; [reflexivity|].
  eapply (both_fragments_in_one_delta (E := ascii_engine) merging true both_fragments_line
            _ _ "why" "so" eq_refl).
  - split; [reflexivity|]. split; [reflexivity|]. split; reflexivity.
  - reflexivity.
  - reflexivity.
  - reflexivity.
  - reflexivity.
Defined.

(** A transcoded line in pass-through mode: the event is written with
    the delta's own content, or an empty one, and without the reasoning;
    the flag is as it was. *)
Lemma handle_line_passes {E : Engine} (cfg : config) (started : bool) (line : string)
      (data : json) (fields : list (string * json)) :
  SHOW_REASONING cfg = false ->
  transcoded_line line data fields ->
  exists data',
    handle_line cfg started line = (started, [Event data'])
    /\ JS.get_opt (first_delta data') "content"
       = Some (JS.or_else (Alist.find "content" fields) (JStr EmptyString))
    /\ JS.get_opt (first_delta data') "reasoning_content" = None.
Proof.
  intros Hshow (Hdata & Hdone & Hparse & Hdelta).
  unfold handle_line. rewrite Hdata, Hdone, Hparse.
  rewrite (transcode_body cfg started data (first_delta_not_null _ _ Hdelta)).
  rewrite Hdelta, Hshow. change (JS.truthy (Some (JObj fields))) with true.
  cbn [JS.get_opt JS.get].
  eexists. split; [reflexivity|].
  rewrite first_delta_on_first_delta, Hdelta.
  cbn [option_map JS.set JS.delete JS.get_opt JS.get]. split.
  - rewrite find_remove_other by discriminate. apply find_set_same.
  - apply find_remove_same.
Qed.

(** X17.  In pass-through mode, for any run of transcoded lines, each
    with whatever reasoning and with a visible text (its [content] when
    that is a string, empty when it is missing, [null] or otherwise
    falsy): every line is written as an event whose first delta has that
    text as content and no [reasoning_content], so the text a client puts
    together is the visible texts one after the other; the flag stays as
    it was. *)
Theorem pass_through_shows_only_content {E : Engine} (cfg : config) (started : bool)
        (lines texts : list string) :
  SHOW_REASONING cfg = false ->
  Forall2 plain_line lines texts ->
  exists events,
    handle_lines cfg started lines = (started, map Event events)
    /\ map (fun d => JS.get_opt (first_delta d) "content") events
       = map (fun text => Some (JStr text)) texts
    /\ Forall (fun d => JS.get_opt (first_delta d) "reasoning_content" = None) events.
Proof.
  intros Hshow Hall. induction Hall as [|line text lines texts Hline Hrest IH].
  - exists []. repeat split. constructor.
  - destruct Hline as (data & fields & Hline & Htext).
    destruct (handle_line_passes cfg started line data fields Hshow Hline)
      as (d & Hd & Hc & Hn).
    destruct IH as (events & Hrun & Hcs & Hns).
    exists (d :: events). cbn [handle_lines]. rewrite Hd, Hrun. split; [|split].
    + reflexivity.
    + cbn [map]. rewrite Hc, Hcs. f_equal. f_equal.
      destruct Htext as [-> | [Hfalsy ->]].
      * unfold JS.or_else. cbn [JS.truthy]. now destruct text.
      * unfold JS.or_else. destruct (Alist.find "content" fields); [|reflexivity].
        now rewrite Hfalsy.
    + now constructor.
Qed.

Lemma pass_through_shows_only_content_witness :
  SHOW_REASONING shipped = false
  /\ exists events,
       handle_lines (E := ascii_engine) shipped true
                    [null_content_line; both_fragments_line; null_reasoning_line]
       = (true, map Event events)
       /\ map (fun d => JS.get_opt (first_delta d) "content") events
          = map (fun text => Some (JStr text)) [EmptyString; "so"; "so"]
       /\ Forall (fun d => JS.get_opt (first_delta d) "reasoning_content" = None) events.
Proof.
  split; [reflexivity|].
  apply (pass_through_shows_only_content (E := ascii_engine) shipped true
           [null_content_line; both_fragments_line; null_reasoning_line]
           [EmptyString; "so"; "so"] eq_refl).
  repeat constructor.
  - eexists. eexists. split.
    + split; [reflexivity|]. split; [reflexivity|]. split; reflexivity.
    + right. split; reflexivity.
  - eexists. eexists. split.
    + split; [reflexivity|]. split; [reflexivity|]. split; reflexivity.
    + left. reflexivity.
  - eexists. eexists. split.
    + split; [reflexivity|]. split; [reflexivity|]. split; reflexivity.
    + left. reflexivity.
Defined.

(** ** The non-streaming path: what is assembled, and when *)

Lemma assemble_choice_body {E : Engine} (cfg : config) (choice : json) :
  assemble_choice cfg choice
  = (fullContent' <-
       match JS.get_opt (JS.get choice "message") "reasoning_content" with
       | Some reasoning =>
           if SHOW_REASONING cfg && JS.truthy (Some reasoning) then
             a <- JS.concat_right THINK_OPEN reasoning ;;
             b <- JS.concat_right (a ++ Str.LF ++ THINK_CLOSE)
                                  (JS.or_else (JS.get_opt (JS.get choice "message") "content")
                                              (JStr EmptyString)) ;;
             Normal (JStr b)
           else Normal (JS.or_else (JS.get_opt (JS.get choice "message") "content")
                                   (JStr EmptyString))
       | None => Normal (JS.or_else (JS.get_opt (JS.get choice "message") "content")
                                    (JStr EmptyString))
       end ;;
     match JS.get choice "message" with
     | None | Some JNull => Throw TypeError
     | Some m =>
         Normal {| index := JS.get choice "index";
                   role := JS.get m "role";
                   content := fullContent';
                   finish_reason := JS.get choice "finish_reason" |}
     end).
Proof. destruct choice; reflexivity. Qed.

(** What a choice is assembled to when no reasoning is merged into it. *)
Lemma assemble_choice_plain {E : Engine} (cfg : config) (choice : json) :
  SHOW_REASONING cfg = false
  \/ JS.truthy (JS.get_opt (JS.get choice "message") "reasoning_content") = false ->
  has_message choice = true ->
  assemble_choice cfg choice
  = Normal {| index := JS.get choice "index";
              role := JS.get_opt (JS.get choice "message") "role";
              content := JS.or_else (JS.get_opt (JS.get choice "message") "content")
                                    (JStr EmptyString);
              finish_reason := JS.get choice "finish_reason" |}.
Proof.
  intros Hplain Hm.
  rewrite (assemble_choice_body cfg choice).
  unfold has_message in Hm.
  destruct (JS.get choice "message") as [m|]; [|discriminate].
  assert (Hmnn : m <> JNull) by (intros ->; discriminate Hm).
  destruct (JS.get_opt (Some m) "reasoning_content") as [reasoning|] eqn:Hr.
  - assert (Hoff : SHOW_REASONING cfg && JS.truthy (Some reasoning) = false).
    { destruct Hplain as [-> | ->]; [reflexivity | apply andb_false_r]. }
    rewrite Hoff. cbn [bind]. destruct m; try reflexivity. congruence.
  - cbn [bind]. destruct m; try reflexivity. congruence.
Qed.

Lemma assemble_choice_needs_message {E : Engine} (cfg : config) (choice : json)
      (out : choice_out) :
  assemble_choice cfg choice = Normal out -> has_message choice = true.
Proof.
  intros Hrun.
  rewrite (assemble_choice_body cfg choice) in Hrun.
  unfold has_message.
  destruct (JS.get choice "message") as [m|].
  - destruct m; try reflexivity.
    unfold bind in Hrun.
    destruct (match JS.get_opt (Some JNull) "reasoning_content" with
              | Some _ => _ | None => _ end); discriminate Hrun.
  - unfold bind in Hrun.
    destruct (match JS.get_opt None "reasoning_content" with
              | Some _ => _ | None => _ end); discriminate Hrun.
Qed.

Lemma map_choices_needs_messages {E : Engine} (cfg : config) (items : list json)
      (outs : list choice_out) :
  map_choices cfg items = Normal outs -> forallb has_message items = true.
Proof.
  revert outs. induction items as [|choice items IH]; intros outs; [reflexivity|].
  cbn [map_choices forallb]. unfold bind.
  destruct (assemble_choice cfg choice) as [out|e] eqn:Hc; [|discriminate].
  rewrite (assemble_choice_needs_message cfg choice out Hc).
  destruct (map_choices cfg items) as [outs'|e]; [|discriminate].
  intros _. now apply (IH outs').
Qed.

Lemma map_choices_plain {E : Engine} (cfg : config) (items : list json) :
  SHOW_REASONING cfg = false ->
  forallb has_message items = true ->
  exists outs, map_choices cfg items = Normal outs.
Proof.
  intros Hshow. induction items as [|choice items IH]; intros Hall.
  - now exists [].
  - cbn [forallb] in Hall. apply andb_true_iff in Hall. destruct Hall as [Hm Hrest].
    destruct (IH Hrest) as [outs Houts].
    cbn [map_choices]. rewrite (assemble_choice_plain cfg choice (or_introl Hshow) Hm), Houts.
    eexists. reflexivity.
Qed.

(** X18.  When a backend response can be assembled.  In every mode a
    response is assembled only if its [choices] is an array and every
    choice in it has a message; without merge mode that is also enough.
    Any other response (no [choices], a choice that is [null] or has no
    message) makes the handler throw, whatever the other choices are. *)
Theorem assemble_needs_messages {E : Engine} (cfg : config) (model : jsval) (data : json) :
  ((exists response, assemble cfg model data = Normal response) ->
   exists items, JS.get data "choices" = Some (JArr items)
                 /\ forallb has_message items = true)
  /\ (SHOW_REASONING cfg = false ->
      forall items, JS.get data "choices" = Some (JArr items) ->
                    forallb has_message items = true ->
                    exists response, assemble cfg model data = Normal response).
Proof.
  split.
  - intros [response Hrun]. unfold assemble in Hrun.
    destruct data as [| | | | |fields]; try discriminate Hrun.
    destruct (JS.get (JObj fields) "choices") as [[| | | |items|]|]; try discriminate Hrun.
    exists items. split; [reflexivity|].
    unfold bind in Hrun.
    destruct (map_choices cfg items) as [outs|e] eqn:Hm; [|discriminate].
    now apply (map_choices_needs_messages cfg items outs).
  - intros Hshow items Hchoices Hall. unfold assemble.
    destruct data as [| | | | |fields]; try discriminate Hchoices.
    rewrite Hchoices.
    destruct (map_choices_plain cfg items Hshow Hall) as [outs ->].
    eexists. reflexivity.
Qed.

Lemma assemble_needs_messages_witness :
  SHOW_REASONING shipped = false
  /\ JS.get (JObj [("choices", JArr [reasoned_choice])]) "choices"
     = Some (JArr [reasoned_choice])
  /\ forallb has_message [reasoned_choice] = true
  /\ exists response,
       assemble (E := ascii_engine) shipped (Some (JStr "gpt-4"))
                (JObj [("choices", JArr [reasoned_choice])]) = Normal response.
Proof.
  split; [reflexivity|]. split; [reflexivity|]. split; [reflexivity|].
  apply (proj2 (assemble_needs_messages (E := ascii_engine) shipped (Some (JStr "gpt-4"))
                  (JObj [("choices", JArr [reasoned_choice])]))
               eq_refl [reasoned_choice]); reflexivity.
Defined.

Lemma assemble_choice_fields {E : Engine} (cfg : config) (choice : json) (out : choice_out) :
  assemble_choice cfg choice = Normal out ->
  index out = JS.get choice "index"
  /\ finish_reason out = JS.get choice "finish_reason"
  /\ role out = JS.get_opt (JS.get choice "message") "role"
  /\ (SHOW_REASONING cfg = false
      \/ JS.truthy (JS.get_opt (JS.get choice "message") "reasoning_content") = false ->
      content out = JS.or_else (JS.get_opt (JS.get choice "message") "content")
                               (JStr EmptyString)).
Proof.
  intros Hrun.
  pose proof (assemble_choice_needs_message cfg choice out Hrun) as Hm.
  assert (Hthree : index out = JS.get choice "index"
                   /\ finish_reason out = JS.get choice "finish_reason"
                   /\ role out = JS.get_opt (JS.get choice "message") "role").
  { rewrite (assemble_choice_body cfg choice) in Hrun.
    unfold has_message in Hm. unfold bind in Hrun.
    destruct (match JS.get_opt (JS.get choice "message") "reasoning_content" with
              | Some _ => _ | None => _ end) as [full|e]; [|discriminate].
    destruct (JS.get choice "message") as [m|]; [|discriminate].
    destruct m; try discriminate Hm; injection Hrun as <-; repeat split. }
  destruct Hthree as (Hi & Hf & Hr). repeat split; auto.
  intros Hplain. rewrite (assemble_choice_plain cfg choice Hplain Hm) in Hrun.
  now injection Hrun as <-.
Qed.

(** X19.  An assembled response mirrors the backend's: it has one choice
    for each backend choice, in the same order, with the backend's
    [index], [finish_reason] and role; where no reasoning is merged (merge
    mode off, or no truthy [reasoning_content]) the content is the
    backend's content, or empty if that is absent or falsy.  The [model]
    is the one the caller asked for, and [usage] is the backend's, or
    zeros if it sent none. *)
Theorem assembled_response_mirrors_backend {E : Engine} (cfg : config) (model : jsval)
        (data : json) (response : openaiResponse) :
  assemble cfg model data = Normal response ->
  exists items,
    JS.get data "choices" = Some (JArr items)
    /\ Forall2
         (fun choice out =>
            index out = JS.get choice "index"
            /\ finish_reason out = JS.get choice "finish_reason"
            /\ role out = JS.get_opt (JS.get choice "message") "role"
            /\ (SHOW_REASONING cfg = false
                \/ JS.truthy (JS.get_opt (JS.get choice "message") "reasoning_content")
                   = false ->
                content out = JS.or_else (JS.get_opt (JS.get choice "message") "content")
                                         (JStr EmptyString)))
         items (choices response)
    /\ response_model response = model
    /\ usage response = JS.or_else (JS.get data "usage") zero_usage.
Proof.
  intros Hrun. unfold assemble in Hrun.
  destruct data as [| | | | |fields]; try discriminate Hrun.
  destruct (JS.get (JObj fields) "choices") as [[| | | |items|]|]; try discriminate Hrun.
  exists items. split; [reflexivity|].
  unfold bind in Hrun.
  destruct (map_choices cfg items) as [outs|e] eqn:Hm; [|discriminate].
  injection Hrun as <-. cbn [choices response_model usage].
  split; [|split; reflexivity].
  clear - Hm. revert outs Hm.
  induction items as [|choice items IH]; intros outs Hm.
  - injection Hm as <-. constructor.
  - cbn [map_choices] in Hm. unfold bind in Hm.
    destruct (assemble_choice cfg choice) as [out|e] eqn:Hc; [|discriminate].
    destruct (map_choices cfg items) as [outs'|e]; [|discriminate].
    injection Hm as <-. constructor; [|now apply IH].
    now apply assemble_choice_fields.
Qed.

Lemma assembled_response_mirrors_backend_witness :
  exists response,
    assemble (E := ascii_engine) merging (Some (JStr "gpt-4"))
             (JObj [("choices", JArr [reasoned_choice])]) = Normal response
    /\ usage response = zero_usage.
Proof.
  eexists. split; [reflexivity|].
  destruct (assembled_response_mirrors_backend (E := ascii_engine) merging (Some (JStr "gpt-4"))
              (JObj [("choices", JArr [reasoned_choice])]) _ eq_refl)
    as (items & _ & _ & _ & Husage).
  exact Husage.
Defined.
